(** * Perplexica dashboard (main.py): fetch-and-cache client and search pass

    A shallow embedding of [main.py]:
    - [ENDPOINTS], [search_perplexica] (lines 7-38) with its
      [st.cache_data(ttl=300)] decorator,
    - [extract_youtube_id] (lines 49-53),
    - the fetch phase of the script body (lines 55-71) and its [else]
      branch (lines 131-134),
    - the drawing of the web tab (lines 74-95).

    Python values are modelled by [pyval]; the outside world (clock,
    requests sent, memo table, messages shown) by [World]; a Python
    computation that may raise by the monad [M]; the drawing of a tab by
    the sequence of its Streamlit calls, [D]. The images and videos tabs
    (lines 98-130) hand values of the response to [st.image] and
    [st.video] and are not modelled. *)

From stdpp Require Import gmap strings list fin_maps.
From Stdlib Require Import ZArith Lia Ascii.

#[local] Set Warnings "-register-all".

Local Open Scope string_scope.
Local Open Scope Z_scope.
Local Open Scope list_scope.

(** ** Python values *)

(** The values that [json.loads] produces and [json.dumps] consumes.
    [PNone] is Python's [None] (JSON null); a dict keeps its keys in
    insertion order. No operation of the program inspects a number, so a
    float is kept as its literal. *)
Inductive pyval : Type :=
  | PNone
  | PBool (b : bool)
  | PInt (n : Z)
  | PFloat (lit : string)
  | PStr (s : string)
  | PList (l : list pyval)
  | PDict (d : list (string * pyval)).

(** [str_truthy s] is [bool(s)] for a [str]. *)
Definition str_truthy (s : string) : bool := negb (bool_decide (s = "")).

(** *** dict operations *)

(** [d[k] = v]: overwrite in place when the key exists, append otherwise. *)
Fixpoint dict_set (k : string) (v : pyval) (d : list (string * pyval))
  : list (string * pyval) :=
  match d with
  | [] => [(k, v)]
  | (k', v') :: d' =>
      if bool_decide (k' = k) then (k, v) :: d' else (k', v') :: dict_set k v d'
  end.

(** [d.update(other)]. *)
Definition dict_update (d other : list (string * pyval)) : list (string * pyval) :=
  fold_left (fun acc kv => dict_set kv.1 kv.2 acc) other d.

(** [d.get(k)] as an option. *)
Fixpoint dict_lookup (k : string) (d : list (string * pyval)) : option pyval :=
  match d with
  | [] => None
  | (k', v) :: d' => if bool_decide (k' = k) then Some v else dict_lookup k d'
  end.

(** ** Exceptions *)

(** What the server sent back: the status line and what [resp.json()]
    makes of the body ([None] when the body is not valid JSON). A body
    nested so deep that decoding it runs into the recursion limit of the
    interpreter is outside this model. *)
Record Response := mkResponse {
  status_code : Z;
  reason : string;
  json_body : option pyval
}.

(** The exceptions the modelled code can raise.
    [RequestException] stands for what [requests.post] itself raises
    (connection failure, timeout, too many redirects);
    [HTTPError] is raised by [raise_for_status] and carries the response;
    [JSONDecodeError] by [resp.json()];
    [AttributeError] by [.get] on a value that is not a dict. *)
Inductive exn : Type :=
  | ValueError (msg : string)
  | RequestException (msg : string)
  | HTTPError (resp : Response)
  | JSONDecodeError
  | AttributeError (msg : string).

(** The error taxonomy of the specification. *)
Inductive error_kind := InvalidMode | RequestFailed | DecodeError | OtherError.

Definition classify (e : exn) : error_kind :=
  match e with
  | ValueError _ => InvalidMode
  | RequestException _ => RequestFailed
  | HTTPError _ => RequestFailed
  | JSONDecodeError => DecodeError
  | AttributeError _ => OtherError
  end.

Inductive result (A : Type) : Type :=
  | Ok (a : A)
  | Raise (e : exn).
Arguments Ok {A} a.
Arguments Raise {A} e.

(** ** Perplexica endpoints (lines 7-12) *)

Definition PERPLEXICA_BASE : string := "http://localhost:3000/api".

Definition ENDPOINTS : gmap string string :=
  <["web" := PERPLEXICA_BASE +:+ "/search"]>
  (<["images" := PERPLEXICA_BASE +:+ "/images"]>
  (<["videos" := PERPLEXICA_BASE +:+ "/videos"]> ∅)).

(** ** The request payload (lines 26-34) *)

Definition build_payload (query mode : string) : pyval :=
  let payload := [("query", PStr query)] in
  if bool_decide (mode = "web") then
    PDict (dict_update payload
             [("focusMode", PStr "webSearch"); ("optimizationMode", PStr "speed")])
  else
    PDict (dict_update payload
             [("chatModel", PDict [("provider", PStr "gemini");
                                   ("model", PStr "gemini-2.5-flash-preview-05-20")]);
              ("chatHistory", PList [])]).

(** ** [extract_youtube_id] (lines 49-53) *)

(** Both patterns have the shape [lit([^?&]+)] with [lit] a literal
    (the escaped [\.] and [\?] match the characters themselves). *)

Definition in_class (c : ascii) : bool :=
  negb (bool_decide (c = "?"%char) || bool_decide (c = "&"%char)).

(** The text left after [lit] when [s] starts with [lit]. *)
Fixpoint strip_prefix (lit s : string) : option string :=
  match lit with
  | EmptyString => Some s
  | String a lit' =>
      match s with
      | EmptyString => None
      | String b s' => if bool_decide (a = b) then strip_prefix lit' s' else None
      end
  end.

(** The longest prefix made of characters of [[^?&]] (the [+] is greedy). *)
Fixpoint take_class (s : string) : string :=
  match s with
  | EmptyString => EmptyString
  | String c s' => if in_class c then String c (take_class s') else EmptyString
  end.

(** A match of [lit([^?&]+)] anchored at the start of [s]: group 1. *)
Definition match_here (lit s : string) : option string :=
  match strip_prefix lit s with
  | Some rest =>
      match take_class rest with
      | EmptyString => None
      | g => Some g
      end
  | None => None
  end.

(** [re.search]: the leftmost position where the pattern matches. *)
Fixpoint re_search (lit s : string) : option string :=
  match match_here lit s with
  | Some g => Some g
  | None =>
      match s with
      | EmptyString => None
      | String _ s' => re_search lit s'
      end
  end.

Definition youtube_patterns : list string :=
  ["youtu.be/"; "youtube.com/watch?v="].

Definition extract_youtube_id (url : string) : option string :=
  (fix loop (ps : list string) : option string :=
     match ps with
     | [] => None
     | p :: ps' =>
         match re_search p url with
         | Some g => Some g
         | None => loop ps'
         end
     end) youtube_patterns.

(** ** The outside world *)

(** One [requests.post(url, json=payload, timeout=...)]. *)
Record Request := mkRequest {
  req_url : string;
  req_json : pyval;
  req_timeout : Z
}.

(** What one POST comes to: [requests.post] raises, or hands back the
    response of the server (after any redirects it followed). *)
Inductive post_outcome :=
  | Failed (msg : string)
  | Responded (r : Response).

(** The outcome of a POST and the seconds it blocked the caller. *)
Record Reply := mkReply {
  outcome : post_outcome;
  elapsed : N
}.

(** One slot of the memo table of [st.cache_data]: the stored return
    value and the timer value from which it no longer counts. *)
Record Entry := mkEntry {
  value : pyval;
  expires : Z
}.

(** What the page shows: [st.error(f"{prefix}{e}")] and [st.info(msg)]. *)
Inductive ui_event :=
  | st_error (prefix : string) (e : exn)
  | st_info (msg : string).

Record World := mkWorld {
  now : Z;                                   (* the timer, in seconds *)
  sent : list Request;                       (* POSTs issued so far, oldest first *)
  cache : gmap (string * string) Entry;      (* memo table, keyed by (query, mode) *)
  shown : list ui_event                      (* messages shown so far *)
}.

Definition init_world (t : Z) : World :=
  {| now := t; sent := []; cache := ∅; shown := [] |}.

(** Time passing between two calls. *)
Definition elapse (dt : N) (w : World) : World :=
  {| now := now w + Z.of_N dt; sent := sent w; cache := cache w; shown := shown w |}.

(** The world once the POST [req] has come back after [dt] seconds. *)
Definition posted (req : Request) (dt : N) (w : World) : World :=
  {| now := now w + Z.of_N dt; sent := sent w ++ [req];
     cache := cache w; shown := shown w |}.

(** ** Computations that may raise *)

Definition M (A : Type) : Type := World -> result A * World.

Definition ret {A} (a : A) : M A := fun w => (Ok a, w).

Definition raise {A} (e : exn) : M A := fun w => (Raise e, w).

Definition bind {A B} (c : M A) (k : A -> M B) : M B :=
  fun w =>
    match c w with
    | (Ok a, w') => k a w'
    | (Raise e, w') => (Raise e, w')
    end.

Notation "x <- c1 ;; c2" := (bind c1 (fun x => c2))
  (at level 100, c1 at next level, right associativity).

(** [try: body / except ... as e: handler e]. Every constructor of [exn]
    is a subclass of [Exception], so [except Exception] and the bare
    [except:] catch the same exceptions here. *)
Definition try_except {A} (body : M A) (handler : exn -> M A) : M A :=
  fun w =>
    match body w with
    | (Ok a, w') => (Ok a, w')
    | (Raise e, w') => handler e w'
    end.

Definition show (ev : ui_event) : M unit :=
  fun w =>
    (Ok tt, {| now := now w; sent := sent w; cache := cache w;
               shown := shown w ++ [ev] |}).

(** ** The [st.cache_data] memo table *)

(** The decorator [st.cache_data(ttl=...)], as Streamlit defines it: per
    tuple of arguments it keeps the value the function returned, in a
    [cachetools.TTLCache]; an entry written at timer value [t] is served
    while the timer is below [t + ttl], and a call that finds nothing to
    serve runs the function and stores what it returns. A call that
    raises stores nothing. *)

Definition cache_get (k : string * string) (w : World) : option pyval :=
  match cache w !! k with
  | Some e => if now w <? expires e then Some (value e) else None
  | None => None
  end.

Definition cache_set (ttl : Z) (k : string * string) (v : pyval) (w : World) : World :=
  {| now := now w; sent := sent w;
     cache := <[k := {| value := v; expires := now w + ttl |}]> (cache w);
     shown := shown w |}.

Definition cache_data (ttl : Z) (k : string * string) (f : M pyval) : M pyval :=
  fun w =>
    match cache_get k w with
    | Some v => (Ok v, w)
    | None =>
        match f w with
        | (Ok v, w') => (Ok v, cache_set ttl k v w')
        | (Raise e, w') => (Raise e, w')
        end
    end.

(** The requests a call of the decorated function with these arguments
    issues in world [w]: one POST when the mode is known and the memo
    table has nothing to serve, none otherwise. *)
Definition fetches (query mode : string) (w : World) : list Request :=
  match cache_get (query, mode) w, ENDPOINTS !! mode with
  | None, Some url => [mkRequest url (build_payload query mode) 60]
  | _, _ => []
  end.

(** Every key of the memo table carries a mode of [ENDPOINTS]. *)
Definition cache_modes_known (w : World) : Prop :=
  forall q m e, cache w !! (q, m) = Some e -> is_Some (ENDPOINTS !! m).

(** ** The [requests] calls *)

(** [resp.raise_for_status()], as the requests library defines it:
    [HTTPError] when [400 <= status_code < 500] (client error) or
    [500 <= status_code < 600] (server error), nothing for any other
    status. *)
Definition raise_for_status (resp : Response) : M unit :=
  if (400 <=? status_code resp) && (status_code resp <? 500) then
    raise (HTTPError resp)
  else if (500 <=? status_code resp) && (status_code resp <? 600) then
    raise (HTTPError resp)
  else ret tt.

(** [resp.json()]. *)
Definition resp_json (resp : Response) : M pyval :=
  match json_body resp with
  | Some v => ret v
  | None => raise JSONDecodeError
  end.

(** [v.get(k, dflt)]: only a dict has the method. *)
Definition py_get (v : pyval) (k : string) (dflt : pyval) : M pyval :=
  match v with
  | PDict d => ret (default dflt (dict_lookup k d))
  | _ => raise (AttributeError "get")
  end.

Section Client.

(** The search service and the network in front of it: what a POST
    comes to, given the timer and the POSTs seen before. *)
Variable server : Z -> list Request -> Request -> Reply.

Definition requests_post (url : string) (payload : pyval) (timeout : Z) : M Response :=
  fun w =>
    let req := mkRequest url payload timeout in
    let rep := server (now w) (sent w) req in
    let w' := posted req (elapsed rep) w in
    match outcome rep with
    | Failed msg => (Raise (RequestException msg), w')
    | Responded r => (Ok r, w')
    end.

(** *** [search_perplexica] (lines 20-38) *)

(** The function under the decorator (lines 22-38). *)
Definition search_perplexica_raw (query mode : string) : M pyval :=
  match ENDPOINTS !! mode with
  | Some url =>
      if str_truthy url then
        resp <- requests_post url (build_payload query mode) 60 ;;
        _ <- raise_for_status resp ;;
        resp_json resp
      else raise (ValueError ("Unknown mode: " +:+ mode))
  | None => raise (ValueError ("Unknown mode: " +:+ mode))
  end.

Definition search_perplexica (query mode : string) : M pyval :=
  cache_data 300 (query, mode) (search_perplexica_raw query mode).

(** *** The script body from line 55 *)

Definition web_block (query : string) : M pyval :=
  try_except (search_perplexica query "web")
    (fun e => _ <- show (st_error "Web search failed: " e) ;; ret PNone).

Definition images_block (query : string) : M pyval :=
  try_except (r <- search_perplexica query "images" ;; py_get r "images" (PList []))
    (fun _ => ret (PList [])).

Definition videos_block (query : string) : M pyval :=
  try_except (r <- search_perplexica query "videos" ;; py_get r "videos" (PList []))
    (fun _ => ret (PList [])).

(** Lines 56-71: the three fetches, in order. *)
Definition search_pass (query : string) : M (pyval * pyval * pyval) :=
  web_result <- web_block query ;;
  imgs <- images_block query ;;
  vids <- videos_block query ;;
  ret (web_result, imgs, vids).

Definition idle_message : string := "Enter a query above and click **Search**.".

(** [if search_button and query: ... else: ...]. The first branch
    yields the three values the tabs are drawn from (the drawing itself,
    lines 73-130, is not modelled); the second shows the hint in each
    of the three tabs. *)
Definition handler (search_button : bool) (query : string)
  : M (option (pyval * pyval * pyval)) :=
  if search_button && str_truthy query then
    r <- search_pass query ;; ret (Some r)
  else
    _ <- show (st_info idle_message) ;;
    _ <- show (st_info idle_message) ;;
    _ <- show (st_info idle_message) ;;
    ret None.

(** *** Worlds the program can be in *)

Inductive reachable : World -> Prop :=
  | reach_init t : reachable (init_world t)
  | reach_elapse dt w : reachable w -> reachable (elapse dt w)
  | reach_search q m w : reachable w -> reachable (search_perplexica q m w).2
  | reach_handler b q w : reachable w -> reachable (handler b q w).2.

End Client.

(** ** Servers to run the client against *)

(** A server that answers every POST with the same status line and body,
    after two seconds. *)
Definition server_status (code : Z) (phrase : string) (body : option pyval)
  : Z -> list Request -> Request -> Reply :=
  fun _ _ _ => mkReply (Responded (mkResponse code phrase body)) 2.

(** A server that cannot be reached. *)
Definition server_down : Z -> list Request -> Request -> Reply :=
  fun _ _ _ => mkReply (Failed "Connection refused") 0.

(** A server whose web search cannot be reached while the other two
    endpoints answer. *)
Definition server_web_down : Z -> list Request -> Request -> Reply :=
  fun _ _ req =>
    if bool_decide (req_url req = "http://localhost:3000/api/search")
    then mkReply (Failed "Connection refused") 0
    else mkReply (Responded (mkResponse 200 "OK" (Some (PDict [])))) 2.

(** ** Drawing the web tab (lines 74-95) *)

(** Drawing touches neither the network nor the memo table: it is a
    sequence of Streamlit calls that an exception may cut short. *)

(** A formatted string, as the pieces of its f-string: literal text and
    interpolated values ([str] of a value is left as the value). *)
Inductive piece :=
  | lit (s : string)
  | val (v : pyval).

(** The Streamlit calls of the web tab, in program order. *)
Inductive st_call :=
  | st_markdown (body : list piece)
  | st_expander (label : list piece)
  | st_columns (spec : list Z)
  | st_image (image : list piece)
  | st_info_box (body : string).

(** The exceptions drawing can raise: a method that the value does not
    have, and an operation on a value of the wrong type. *)
Inductive draw_exn :=
  | NoAttribute (attr : string)
  | WrongType (what : string).

Inductive drawn (A : Type) : Type :=
  | Done (a : A)
  | Abort (e : draw_exn).
Arguments Done {A} a.
Arguments Abort {A} e.

(** The calls made so far, and how the computation ended. *)
Definition D (A : Type) : Type := list st_call * drawn A.

Definition dret {A} (a : A) : D A := ([], Done a).

Definition draise {A} (e : draw_exn) : D A := ([], Abort e).

Definition dcall (c : st_call) : D unit := ([c], Done tt).

Definition dbind {A B} (c : D A) (k : A -> D B) : D B :=
  match c with
  | (calls, Done a) => let (calls', r) := k a in (calls ++ calls', r)
  | (calls, Abort e) => (calls, Abort e)
  end.

Notation "x <~ c1 ;; c2" := (dbind c1 (fun x => c2))
  (at level 100, c1 at next level, right associativity).

(** [for x in items: body x]. *)
Fixpoint dfor {A} (items : list A) (body : A -> D unit) : D unit :=
  match items with
  | [] => dret tt
  | x :: rest => _ <~ body x ;; dfor rest body
  end.

(** [v.get(k, dflt)] while drawing. *)
Definition dget (v : pyval) (k : string) (dflt : pyval) : D pyval :=
  match v with
  | PDict d => dret (default dflt (dict_lookup k d))
  | _ => draise (NoAttribute "get")
  end.

Definition newline : ascii := "010"%char.

(** [String c] in front of the first piece. *)
Definition cons_first (c : ascii) (pieces : list string) : list string :=
  match pieces with
  | p :: ps => String c p :: ps
  | [] => [String c EmptyString]
  end.

(** [s.split("\n\n")]: cut at each occurrence of two newlines, scanning
    from the left; the empty string gives one empty piece. *)
Fixpoint split_paragraphs (s : string) : list string :=
  match s with
  | EmptyString => [EmptyString]
  | String c s' =>
      match s' with
      | String c' rest =>
          if bool_decide (c = newline) && bool_decide (c' = newline)
          then EmptyString :: split_paragraphs rest
          else cons_first c (split_paragraphs s')
      | EmptyString => cons_first c (split_paragraphs s')
      end
  end.

(** ["\n\n".join(pieces)]. *)
Fixpoint join_paragraphs (pieces : list string) : string :=
  match pieces with
  | [] => EmptyString
  | [p] => p
  | p :: ps => p +:+ String newline (String newline (join_paragraphs ps))
  end.

(** [v.split("\n\n")]: only a [str] has the method. *)
Definition dsplit (v : pyval) : D (list string) :=
  match v with
  | PStr s => dret (split_paragraphs s)
  | _ => draise (NoAttribute "split")
  end.

(** The items a [for] loop over [v] sees: the elements of a list, the
    keys of a dict, the characters of a str (taken bytewise here; the
    loop below fails on the first of them whatever it holds); anything
    else is not iterable. *)
Definition diter (v : pyval) : D (list pyval) :=
  match v with
  | PList l => dret l
  | PDict d => dret (map (fun kv => PStr kv.1) d)
  | PStr s => dret (map (fun c => PStr (String c EmptyString)) (String.list_ascii_of_string s))
  | _ => draise (WrongType "not iterable")
  end.

(** [enumerate(items, start=i)]. *)
Fixpoint enumerate_from (i : Z) (items : list pyval) : list (Z * pyval) :=
  match items with
  | [] => []
  | x :: rest => (i, x) :: enumerate_from (i + 1) rest
  end.

(** [extract_youtube_id(url)] on a value: [re.search] accepts a [str]
    only. *)
Definition dextract (url : pyval) : D (option string) :=
  match url with
  | PStr u => dret (extract_youtube_id u)
  | _ => draise (WrongType "expected string or bytes-like object")
  end.

(** The body of the loop over the sources (lines 82-93). *)
Definition draw_source (i : Z) (src : pyval) : D unit :=
  meta <~ dget src "metadata" (PDict []) ;;
  title <~ dget meta "title" PNone ;;
  url <~ dget meta "url" PNone ;;
  snippet <~ dget src "pageContent" (PStr "") ;;
  _ <~ dcall (st_expander [val (PInt i); lit ". "; val title]) ;;
  _ <~ dcall (st_columns [1; 4]) ;;
  yt <~ dextract url ;;
  _ <~ match yt with
       | Some g =>
           if str_truthy g then
             dcall (st_image [lit "https://img.youtube.com/vi/"; val (PStr g);
                              lit "/hqdefault.jpg"])
           else dret tt
       | None => dret tt
       end ;;
  _ <~ dcall (st_markdown [lit "[🔗 Source]("; val url; lit ")"]) ;;
  dcall (st_markdown [lit "> "; val snippet]).

Section Drawing.

(** Whether a float literal denotes a non-zero number is left to the
    float parser. *)
Variable float_truthy : string -> bool.

(** Truth value of a Python object, as [if x:] computes it. *)
Definition truthy (v : pyval) : bool :=
  match v with
  | PNone => false
  | PBool b => b
  | PInt n => negb (n =? 0)
  | PFloat l => float_truthy l
  | PStr s => str_truthy s
  | PList l => match l with [] => false | _ => true end
  | PDict d => match d with [] => false | _ => true end
  end.

(** The web tab (lines 74-95). *)
Definition web_tab (web_result : pyval) : D unit :=
  if truthy web_result then
    _ <~ dcall (st_markdown [lit "### Web Search Result"]) ;;
    message <~ dget web_result "message" (PStr "") ;;
    paragraphs <~ dsplit message ;;
    _ <~ dfor paragraphs (fun p => dcall (st_markdown [lit "> "; val (PStr p)])) ;;
    _ <~ dcall (st_markdown [lit "---### Sources"]) ;;
    sources <~ dget web_result "sources" (PList []) ;;
    items <~ diter sources ;;
    dfor (enumerate_from 1 items) (fun '(i, src) => draw_source i src)
  else
    dcall (st_info_box "No web results.").

End Drawing.

(** What one well-formed source draws. *)
Definition source_calls (i : Z) (title : pyval) (url : string) (snippet : pyval)
  : list st_call :=
  [st_expander [val (PInt i); lit ". "; val title]; st_columns [1; 4]] ++
  match extract_youtube_id url with
  | Some g => [st_image [lit "https://img.youtube.com/vi/"; val (PStr g);
                         lit "/hqdefault.jpg"]]
  | None => []
  end ++
  [st_markdown [lit "[🔗 Source]("; val (PStr url); lit ")"];
   st_markdown [lit "> "; val snippet]].

(** A source as the service documents it: a dict whose metadata is a
    dict with a [str] under "url". *)
Definition source_ok (src : pyval) : Prop :=
  exists d meta url,
    src = PDict d /\
    dict_lookup "metadata" d = Some (PDict meta) /\
    dict_lookup "url" meta = Some (PStr url).

(** Whether a call opens an expander. *)
Definition is_expander (c : st_call) : bool :=
  match c with
  | st_expander _ => true
  | _ => false
  end.

(** Whether [c] occurs in [s]. *)
Fixpoint has_char (c : ascii) (s : string) : bool :=
  match s with
  | EmptyString => false
  | String a s' => bool_decide (a = c) || has_char c s'
  end.

(** Every character of [s] is in [[^?&]]. *)
Fixpoint all_in_class (s : string) : bool :=
  match s with
  | EmptyString => true
  | String a s' => in_class a && all_in_class s'
  end.

(** [s] is empty or starts with [?] or [&]: the match of [[^?&]+] cannot
    run into it. *)
Definition stops_class (s : string) : bool :=
  match s with
  | EmptyString => true
  | String a _ => negb (in_class a)
  end.

(** What [r.get(k, [])] comes to inside a block whose [except] turns any
    exception into the empty list: the value under [k] when [r] is a dict
    that has the key, the empty list otherwise. *)
Definition field_or_empty (k : string) (r : pyval) : pyval :=
  match r with
  | PDict d => default (PList []) (dict_lookup k d)
  | _ => PList []
  end.

(** [r] is not a dict, or a dict without the key [k]. *)
Definition lacks_field (k : string) (r : pyval) : Prop :=
  match r with
  | PDict d => dict_lookup k d = None
  | _ => True
  end.

(** The request of a pass for one mode. *)
Definition pass_request (query : string) (r : Request) : Prop :=
  (req_timeout r = 60) /\
  (exists mode, ENDPOINTS !! mode = Some (req_url r) /\ req_json r = build_payload query mode).

(** How many expanders a sequence of calls opens. *)
Definition count_expanders (calls : list st_call) : nat :=
  length (List.filter is_expander calls).

(** A source whose metadata is a dict (or is missing) and holds no [str]
    under "url". *)
Definition source_without_url (src : pyval) : Prop :=
  exists d meta,
    src = PDict d /\
    default (PDict []) (dict_lookup "metadata" d) = PDict meta /\
    (forall u, default PNone (dict_lookup "url" meta) <> PStr u).

(** The call that quotes one paragraph of the message (line 78). *)
Definition quote_call (p : string) : st_call :=
  st_markdown [lit "> "; val (PStr p)].

(** A world at timer value 10 whose memo table holds live entries for the
    three modes of the query "cats". *)
Definition warm_world (v1 v2 v3 : pyval) : World :=
  {| now := 10; sent := [];
     cache := <[("cats", "web") := mkEntry v1 300]>
              (<[("cats", "images") := mkEntry v2 300]>
              (<[("cats", "videos") := mkEntry v3 300]> ∅));
     shown := [] |}.

(** * Properties *)

(** ** The endpoint table *)

Lemma ENDPOINTS_unknown (mode : string) :
  mode ≠ "web" -> mode ≠ "images" -> mode ≠ "videos" -> ENDPOINTS !! mode = None.
Proof.
  intros Hw Hi Hv. unfold ENDPOINTS.
  rewrite !lookup_insert_ne by congruence. apply lookup_empty.
Qed.

Lemma ENDPOINTS_known (mode url : string) :
  ENDPOINTS !! mode = Some url ->
  (mode = "web" /\ url = "http://localhost:3000/api/search") \/
  (mode = "images" /\ url = "http://localhost:3000/api/images") \/
  (mode = "videos" /\ url = "http://localhost:3000/api/videos").
Proof.
  unfold ENDPOINTS. intros H.
  destruct (decide (mode = "web")) as [->|Hw].
  { rewrite lookup_insert_eq in H. injection H as <-. by left. }
  rewrite lookup_insert_ne in H by congruence.
  destruct (decide (mode = "images")) as [->|Hi].
  { rewrite lookup_insert_eq in H. injection H as <-. right. by left. }
  rewrite lookup_insert_ne in H by congruence.
  destruct (decide (mode = "videos")) as [->|Hv].
  { rewrite lookup_insert_eq in H. injection H as <-. right. by right. }
  rewrite lookup_insert_ne in H by congruence.
  by rewrite lookup_empty in H.
Qed.

Lemma ENDPOINTS_url_truthy (mode url : string) :
  ENDPOINTS !! mode = Some url -> str_truthy url = true.
Proof.
  intros H. destruct (ENDPOINTS_known _ _ H) as [[_ ->]|[[_ ->]|[_ ->]]]; reflexivity.
Qed.

(** ** The video-id extractor *)

Lemma take_class_in_class (s : string) (c : ascii) :
  In c (String.list_ascii_of_string (take_class s)) -> in_class c = true.
Proof.
  induction s as [|a s IH]; simpl; [tauto|].
  destruct (in_class a) eqn:Ha; simpl; [|tauto].
  intros [<-|Hin]; auto.
Qed.

Lemma match_here_group (lit s g : string) :
  match_here lit s = Some g ->
  g ≠ "" /\ forall c, In c (String.list_ascii_of_string g) -> in_class c = true.
Proof.
  unfold match_here. destruct (strip_prefix lit s) as [rest|]; [|discriminate].
  destruct (take_class rest) eqn:Hg; [discriminate|].
  intros [= <-]. split; [discriminate|].
  rewrite <- Hg. apply take_class_in_class.
Qed.

Lemma re_search_group (lit s g : string) :
  re_search lit s = Some g ->
  g ≠ "" /\ forall c, In c (String.list_ascii_of_string g) -> in_class c = true.
Proof.
  induction s as [|a s IH]; simpl.
  - destruct (match_here lit "") eqn:Hm; [|discriminate].
    intros [= <-]. eapply match_here_group; eassumption.
  - destruct (match_here lit (String a s)) eqn:Hm; [|exact IH].
    intros [= <-]. eapply match_here_group; eassumption.
Qed.

(** An id the extractor returns is never empty and holds no [?] and no [&]. *)
Lemma extract_youtube_id_group (url g : string) :
  extract_youtube_id url = Some g ->
  g ≠ "" /\ forall c, In c (String.list_ascii_of_string g) -> in_class c = true.
Proof.
  unfold extract_youtube_id, youtube_patterns.
  destruct (re_search "youtu.be/" url) eqn:H1.
  { intros [= <-]. eapply re_search_group; eassumption. }
  destruct (re_search "youtube.com/watch?v=" url) eqn:H2; [|discriminate].
  intros [= <-]. eapply re_search_group; eassumption.
Qed.

(** C7: the extractor returns "XYZ" on https://youtu.be/XYZ and finds no
    match (None) on https://example.com. *)
Theorem extract_youtube_id_examples :
  extract_youtube_id "https://youtu.be/XYZ" = Some "XYZ" /\
  extract_youtube_id "https://example.com" = None.
Proof. split; vm_compute; reflexivity. Qed.

(** ** The payload *)

Lemma build_payload_web (query : string) :
  build_payload query "web" =
  PDict [("query", PStr query);
         ("focusMode", PStr "webSearch");
         ("optimizationMode", PStr "speed")].
Proof. reflexivity. Qed.

Lemma build_payload_other (query mode : string) :
  mode ≠ "web" ->
  build_payload query mode =
  PDict [("query", PStr query);
         ("chatModel", PDict [("provider", PStr "gemini");
                              ("model", PStr "gemini-2.5-flash-preview-05-20")]);
         ("chatHistory", PList [])].
Proof.
  intros Hne. unfold build_payload.
  rewrite bool_decide_eq_false_2 by exact Hne. reflexivity.
Qed.


(** ** The memo table *)

Lemma cache_get_Some (k : string * string) (w : World) (v : pyval) :
  cache_get k w = Some v <->
  exists e, cache w !! k = Some e /\ now w < expires e /\ value e = v.
Proof.
  unfold cache_get. split.
  - destruct (cache w !! k) as [e|]; [|discriminate].
    destruct (now w <? expires e) eqn:Hlt; [|discriminate].
    intros [= <-]. exists e. apply Z.ltb_lt in Hlt. auto.
  - intros (e & -> & Hlt & <-). apply Z.ltb_lt in Hlt. by rewrite Hlt.
Qed.

Lemma cache_get_expired (k : string * string) (w : World) (e : Entry) :
  cache w !! k = Some e -> expires e <= now w -> cache_get k w = None.
Proof.
  intros He Hle. unfold cache_get. rewrite He.
  destruct (now w <? expires e) eqn:Hlt; [|reflexivity].
  apply Z.ltb_lt in Hlt. lia.
Qed.

Lemma cache_get_absent (k : string * string) (w : World) :
  cache w !! k = None -> cache_get k w = None.
Proof. intros H. unfold cache_get. by rewrite H. Qed.

Lemma cache_get_set_elapse (ttl : Z) (k : string * string) (v : pyval)
      (w : World) (dt : N) :
  Z.of_N dt < ttl -> cache_get k (elapse dt (cache_set ttl k v w)) = Some v.
Proof.
  intros Hdt. unfold cache_get, elapse, cache_set. simpl.
  rewrite lookup_insert_eq. simpl.
  destruct (now w + Z.of_N dt <? now w + ttl) eqn:Hlt; [reflexivity|].
  apply Z.ltb_ge in Hlt. lia.
Qed.

Lemma cache_get_set_late (ttl : Z) (k : string * string) (v : pyval)
      (w : World) (dt : N) :
  ttl <= Z.of_N dt -> cache_get k (elapse dt (cache_set ttl k v w)) = None.
Proof.
  intros Hdt. unfold cache_get, elapse, cache_set. simpl.
  rewrite lookup_insert_eq. simpl.
  destruct (now w + Z.of_N dt <? now w + ttl) eqn:Hlt; [|reflexivity].
  apply Z.ltb_lt in Hlt. lia.
Qed.

(** Case analysis on what a POST came to, as [raw_known] displays it:
    no response, an error status, a body that parses, one that does not. *)
Ltac reply_cases :=
  destruct (outcome _) as [?|?r];
  [|destruct (_ && _); [|destruct (json_body _) as [?v|]]].

Section ClientFacts.

Variable server : Z -> list Request -> Request -> Reply.

Abbreviation raw := (search_perplexica_raw server).
Abbreviation search := (search_perplexica server).

(** *** The function under the decorator *)

Lemma raw_unknown (q m : string) (w : World) :
  ENDPOINTS !! m = None ->
  raw q m w = (Raise (ValueError ("Unknown mode: " +:+ m)), w).
Proof. intros H. unfold search_perplexica_raw. by rewrite H. Qed.

(** For a known mode the function posts once, then looks at the reply. *)
Lemma raw_known (q m url : string) (w : World) :
  ENDPOINTS !! m = Some url ->
  let req := mkRequest url (build_payload q m) 60 in
  let rep := server (now w) (sent w) req in
  raw q m w =
  (match outcome rep with
   | Failed msg => Raise (RequestException msg)
   | Responded r =>
       if (400 <=? status_code r) && (status_code r <? 600) then Raise (HTTPError r)
       else match json_body r with
            | Some v => Ok v
            | None => Raise JSONDecodeError
            end
   end, posted req (elapsed rep) w).
Proof.
  intros H. simpl. unfold search_perplexica_raw.
  rewrite H, (ENDPOINTS_url_truthy _ _ H).
  unfold bind, requests_post.
  destruct (outcome _) as [msg|r]; [reflexivity|].
  unfold raise_for_status, resp_json.
  destruct (400 <=? status_code r) eqn:H4, (status_code r <? 500) eqn:H5,
           (500 <=? status_code r) eqn:H6, (status_code r <? 600) eqn:H7;
    simpl; try reflexivity;
    try (destruct (json_body r); reflexivity);
    exfalso;
    repeat match goal with
           | H : (_ <=? _) = true |- _ => apply Z.leb_le in H
           | H : (_ <=? _) = false |- _ => apply Z.leb_gt in H
           | H : (_ <? _) = true |- _ => apply Z.ltb_lt in H
           | H : (_ <? _) = false |- _ => apply Z.ltb_ge in H
           end; lia.
Qed.

Lemma raw_known_world (q m url : string) (w : World) :
  ENDPOINTS !! m = Some url ->
  (raw q m w).2 =
  posted (mkRequest url (build_payload q m) 60)
         (elapsed (server (now w) (sent w) (mkRequest url (build_payload q m) 60))) w.
Proof. intros H. by rewrite (raw_known q m url w H). Qed.


(** *** The decorated function *)

Lemma search_hit (q m : string) (w : World) (v : pyval) :
  cache_get (q, m) w = Some v -> search q m w = (Ok v, w).
Proof. intros H. unfold search_perplexica, cache_data. by rewrite H. Qed.

Lemma search_miss (q m : string) (w : World) :
  cache_get (q, m) w = None ->
  search q m w =
  match raw q m w with
  | (Ok v, w') => (Ok v, cache_set 300 (q, m) v w')
  | (Raise e, w') => (Raise e, w')
  end.
Proof. intros H. unfold search_perplexica, cache_data. by rewrite H. Qed.

(** A call never touches the messages shown, and only ever appends to
    the requests sent. *)
Lemma search_frame (q m : string) (w : World) :
  shown (search q m w).2 = shown w /\
  (exists reqs, sent (search q m w).2 = sent w ++ reqs /\ (length reqs <= 1)%nat) /\
  now w <= now (search q m w).2.
Proof.
  destruct (cache_get (q, m) w) as [v|] eqn:Hc.
  - rewrite (search_hit _ _ _ _ Hc). simpl.
    split; [done|]. split; [|lia]. exists []. split; [by rewrite app_nil_r|simpl; lia].
  - rewrite (search_miss _ _ _ Hc).
    destruct (ENDPOINTS !! m) as [url|] eqn:Hm.
    + rewrite (raw_known q m url w Hm). simpl.
      match goal with |- context [posted ?r ?d w] => set (req := r); set (dt := d) end.
      assert (Hw : forall w', (w' = posted req dt w \/ exists v, w' = cache_set 300 (q, m) v (posted req dt w)) ->
                 shown w' = shown w /\
                 (exists reqs, sent w' = sent w ++ reqs /\ (length reqs <= 1)%nat) /\
                 now w <= now w').
      { intros w' [->|[v ->]]; simpl; (split; [done|]; split; [exists [req]; split; [done|simpl; lia]|lia]). }
      reply_cases; apply Hw; eauto.
    + rewrite (raw_unknown _ _ _ Hm). simpl.
      split; [done|]. split; [|lia]. exists []. split; [by rewrite app_nil_r|simpl; lia].
Qed.

(** *** The blocks of the script body *)

Lemma web_block_eq (q : string) (w : World) :
  web_block server q w =
  match search q "web" w with
  | (Ok v, w') => (Ok v, w')
  | (Raise e, w') => (Ok PNone, (show (st_error "Web search failed: " e) w').2)
  end.
Proof.
  unfold web_block, try_except. destruct (search q "web" w) as [[v|e] w']; reflexivity.
Qed.

Lemma images_block_eq (q : string) (w : World) :
  images_block server q w =
  match search q "images" w with
  | (Ok (PDict d), w') => (Ok (default (PList []) (dict_lookup "images" d)), w')
  | (_, w') => (Ok (PList []), w')
  end.
Proof.
  unfold images_block, try_except, bind.
  destruct (search q "images" w) as [[v|e] w']; [|reflexivity].
  destruct v; reflexivity.
Qed.

Lemma videos_block_eq (q : string) (w : World) :
  videos_block server q w =
  match search q "videos" w with
  | (Ok (PDict d), w') => (Ok (default (PList []) (dict_lookup "videos" d)), w')
  | (_, w') => (Ok (PList []), w')
  end.
Proof.
  unfold videos_block, try_except, bind.
  destruct (search q "videos" w) as [[v|e] w']; [|reflexivity].
  destruct v; reflexivity.
Qed.

(** No block lets an exception through. *)
Lemma web_block_ok (q : string) (w : World) :
  exists v, (web_block server q w).1 = Ok v.
Proof.
  rewrite web_block_eq. destruct (search q "web" w) as [[v|e] w']; simpl; eauto.
Qed.

Lemma images_block_ok (q : string) (w : World) :
  exists v, (images_block server q w).1 = Ok v.
Proof.
  rewrite images_block_eq.
  destruct (search q "images" w) as [[v|e] w']; [destruct v|]; simpl; eauto.
Qed.

Lemma videos_block_ok (q : string) (w : World) :
  exists v, (videos_block server q w).1 = Ok v.
Proof.
  rewrite videos_block_eq.
  destruct (search q "videos" w) as [[v|e] w']; [destruct v|]; simpl; eauto.
Qed.

(** A block leaves the requests and the memo table as its fetch left them. *)
Lemma web_block_world (q : string) (w : World) :
  sent (web_block server q w).2 = sent (search q "web" w).2 /\
  cache (web_block server q w).2 = cache (search q "web" w).2 /\
  now (web_block server q w).2 = now (search q "web" w).2.
Proof.
  rewrite web_block_eq. destruct (search q "web" w) as [[v|e] w']; simpl; auto.
Qed.

Lemma images_block_world (q : string) (w : World) :
  (images_block server q w).2 = (search q "images" w).2.
Proof.
  rewrite images_block_eq.
  destruct (search q "images" w) as [[v|e] w']; [destruct v|]; reflexivity.
Qed.

Lemma videos_block_world (q : string) (w : World) :
  (videos_block server q w).2 = (search q "videos" w).2.
Proof.
  rewrite videos_block_eq.
  destruct (search q "videos" w) as [[v|e] w']; [destruct v|]; reflexivity.
Qed.

Lemma search_pass_eq (q : string) (w : World) :
  let b1 := web_block server q w in
  let b2 := images_block server q b1.2 in
  let b3 := videos_block server q b2.2 in
  exists web imgs vids,
    b1.1 = Ok web /\ b2.1 = Ok imgs /\ b3.1 = Ok vids /\
    search_pass server q w = (Ok (web, imgs, vids), b3.2).
Proof.
  simpl. unfold search_pass, bind.
  destruct (web_block_ok q w) as [web Hweb].
  destruct (web_block server q w) as [r1 w1]. simpl in *. subst r1.
  destruct (images_block_ok q w1) as [imgs Himgs].
  destruct (images_block server q w1) as [r2 w2]. simpl in *. subst r2.
  destruct (videos_block_ok q w2) as [vids Hvids].
  destruct (videos_block server q w2) as [r3 w3]. simpl in *. subst r3.
  exists web, imgs, vids. auto.
Qed.

(** *** An invariant of the memo table *)

Lemma search_cache (q m : string) (w : World) :
  cache (search q m w).2 = cache w \/
  exists url v t,
    ENDPOINTS !! m = Some url /\
    cache (search q m w).2 = <[(q, m) := mkEntry v t]> (cache w).
Proof.
  destruct (cache_get (q, m) w) as [v|] eqn:Hc.
  { rewrite (search_hit _ _ _ _ Hc). by left. }
  rewrite (search_miss _ _ _ Hc).
  destruct (ENDPOINTS !! m) as [url|] eqn:Hm.
  - rewrite (raw_known q m url w Hm). simpl.
    reply_cases; [by left|by left| |by left].
    right. exists url, v. eexists. split; reflexivity.
  - rewrite (raw_unknown _ _ _ Hm). by left.
Qed.

Lemma search_keeps_modes (q m : string) (w : World) :
  cache_modes_known w -> cache_modes_known (search q m w).2.
Proof.
  intros Hinv q' m' e. destruct (search_cache q m w) as [->|(url & v & t & Hm & ->)].
  { apply Hinv. }
  destruct (decide ((q, m) = (q', m'))) as [[= <- <-]|Hne].
  - intros _. by exists url.
  - rewrite lookup_insert_ne by exact Hne. apply Hinv.
Qed.

Lemma search_pass_keeps_modes (q : string) (w : World) :
  cache_modes_known w -> cache_modes_known (search_pass server q w).2.
Proof.
  intros Hinv.
  destruct (search_pass_eq q w) as (web & imgs & vids & _ & _ & _ & ->). simpl.
  rewrite videos_block_world. apply search_keeps_modes.
  rewrite images_block_world. apply search_keeps_modes.
  pose proof (search_keeps_modes q "web" w Hinv) as H1.
  destruct (web_block_world q w) as (_ & Hc & _).
  intros q' m' e. rewrite Hc. apply H1.
Qed.

Lemma handler_keeps_modes (b : bool) (q : string) (w : World) :
  cache_modes_known w -> cache_modes_known (handler server b q w).2.
Proof.
  intros Hinv. unfold handler.
  destruct (b && str_truthy q).
  - pose proof (search_pass_keeps_modes q w Hinv) as H.
    unfold bind. destruct (search_pass server q w) as [[r|e] w']; exact H.
  - exact Hinv.
Qed.

Lemma reachable_modes_known (w : World) :
  reachable server w -> cache_modes_known w.
Proof.
  induction 1 as [t|dt w _ IH|q m w _ IH|b q w _ IH].
  - intros q m e. simpl. by rewrite lookup_empty.
  - exact IH.
  - by apply search_keeps_modes.
  - by apply handler_keeps_modes.
Qed.

(** ** The claims about [search_perplexica] *)

(** C2: for every query and every mode outside web, images and videos,
    the decorated client raises the unknown-mode [ValueError] (the
    specification's InvalidMode) and leaves the world as it was, so no
    request is sent; the function under the decorator does the same. *)
Theorem unknown_mode_fails_fast (q m : string) (w : World) :
  reachable server w ->
  m ≠ "web" -> m ≠ "images" -> m ≠ "videos" ->
  search q m w = (Raise (ValueError ("Unknown mode: " +:+ m)), w) /\
  raw q m w = (Raise (ValueError ("Unknown mode: " +:+ m)), w) /\
  classify (ValueError ("Unknown mode: " +:+ m)) = InvalidMode.
Proof.
  intros Hr Hw Hi Hv.
  pose proof (ENDPOINTS_unknown m Hw Hi Hv) as Hm.
  assert (Hc : cache_get (q, m) w = None).
  { unfold cache_get. destruct (cache w !! (q, m)) as [e|] eqn:He; [|reflexivity].
    destruct (reachable_modes_known w Hr q m e He) as [url Hurl]. congruence. }
  rewrite (search_miss _ _ _ Hc), (raw_unknown _ _ _ Hm). auto.
Qed.

Lemma search_sent (q m : string) (w : World) :
  sent (search q m w).2 = sent w ++ fetches q m w.
Proof.
  unfold fetches. destruct (cache_get (q, m) w) as [v|] eqn:Hc.
  { rewrite (search_hit _ _ _ _ Hc). simpl. by rewrite app_nil_r. }
  rewrite (search_miss _ _ _ Hc).
  destruct (ENDPOINTS !! m) as [url|] eqn:Hm.
  - rewrite (raw_known q m url w Hm). simpl.
    reply_cases; reflexivity.
  - rewrite (raw_unknown _ _ _ Hm). simpl. by rewrite app_nil_r.
Qed.

(** A successful call leaves a live entry holding what it returned. *)
Lemma search_ok_miss (q m : string) (w w1 : World) (v : pyval) :
  cache_get (q, m) w = None ->
  search q m w = (Ok v, w1) ->
  exists url,
    ENDPOINTS !! m = Some url /\
    w1 = cache_set 300 (q, m) v
           (posted (mkRequest url (build_payload q m) 60)
              (elapsed (server (now w) (sent w) (mkRequest url (build_payload q m) 60))) w).
Proof.
  intros Hc. rewrite (search_miss _ _ _ Hc).
  destruct (ENDPOINTS !! m) as [url|] eqn:Hm.
  - rewrite (raw_known q m url w Hm). simpl.
    reply_cases; try discriminate.
    intros [= <- <-]. by exists url.
  - rewrite (raw_unknown _ _ _ Hm). discriminate.
Qed.

(** C1: when a call returns normally and the same (query, mode) is asked
    again less than 300 seconds later, the two calls together send at
    most one request; and when the first call was a fetch (nothing live in
    the memo table), the second is served the value the first returned
    without changing the world, so the one request of the first call is
    the only one. *)
Theorem second_call_within_ttl (q m : string) (w w1 : World) (v : pyval) (dt : N) :
  search q m w = (Ok v, w1) ->
  Z.of_N dt < 300 ->
  (length (sent (search q m (elapse dt w1)).2) <= S (length (sent w)))%nat /\
  (cache_get (q, m) w = None ->
   search q m (elapse dt w1) = (Ok v, elapse dt w1) /\
   exists url,
     ENDPOINTS !! m = Some url /\
     sent w1 = sent w ++ [mkRequest url (build_payload q m) 60]).
Proof.
  intros H1 Hdt.
  destruct (cache_get (q, m) w) as [v0|] eqn:Hc.
  - rewrite (search_hit _ _ _ _ Hc) in H1. injection H1 as <- <-.
    split; [|discriminate].
    destruct (search_frame q m (elapse dt w)) as (_ & (reqs & -> & Hlen) & _).
    simpl. rewrite length_app. lia.
  - destruct (search_ok_miss _ _ _ _ _ Hc H1) as (url & Hm & ->).
    assert (Hhit : search q m (elapse dt (cache_set 300 (q, m) v
                     (posted (mkRequest url (build_payload q m) 60)
                        (elapsed (server (now w) (sent w)
                                    (mkRequest url (build_payload q m) 60))) w)))
                   = (Ok v, elapse dt (cache_set 300 (q, m) v
                     (posted (mkRequest url (build_payload q m) 60)
                        (elapsed (server (now w) (sent w)
                                    (mkRequest url (build_payload q m) 60))) w)))).
    { apply search_hit. by apply cache_get_set_elapse. }
    split.
    + rewrite Hhit. simpl. rewrite length_app. simpl. lia.
    + intros _. split; [exact Hhit|]. by exists url.
Qed.

(** An entry that has run out is not served: the call fetches, whatever
    value the entry holds. *)
Lemma expired_entry_refetched (q m url : string) (w : World) (e : Entry) :
  ENDPOINTS !! m = Some url ->
  cache w !! (q, m) = Some e ->
  expires e <= now w ->
  sent (search q m w).2 = sent w ++ [mkRequest url (build_payload q m) 60] /\
  (search q m w).1 = (raw q m w).1.
Proof.
  intros Hm He Hle.
  assert (Hc : cache_get (q, m) w = None).
  { eapply cache_get_expired; [exact He|exact Hle]. }
  split.
  - rewrite search_sent. unfold fetches. by rewrite Hc, Hm.
  - rewrite (search_miss _ _ _ Hc). destruct (raw q m w) as [[v'|e'] w']; reflexivity.
Qed.

(** C3: when a call fetched and stored its result, a call with the same
    (query, mode) made 300 seconds or more after the first one returned
    sends a new request, and its outcome is that of the undecorated
    function: the value [v] that was stored plays no part. The entry the
    first call left is the one written at the timer value of its return,
    running out 300 seconds later. *)
Theorem refetch_after_ttl (q m : string) (w w1 : World) (v : pyval) (dt : N) :
  cache_get (q, m) w = None ->
  search q m w = (Ok v, w1) ->
  300 <= Z.of_N dt ->
  exists url,
    ENDPOINTS !! m = Some url /\
    cache w1 !! (q, m) = Some (mkEntry v (now w1 + 300)) /\
    sent (search q m (elapse dt w1)).2 =
      sent w1 ++ [mkRequest url (build_payload q m) 60] /\
    (search q m (elapse dt w1)).1 = (raw q m (elapse dt w1)).1.
Proof.
  intros Hc H1 Hdt.
  destruct (search_ok_miss _ _ _ _ _ Hc H1) as (url & Hm & Hw1).
  assert (He : cache w1 !! (q, m) = Some (mkEntry v (now w1 + 300))).
  { rewrite Hw1. simpl. by rewrite lookup_insert_eq. }
  assert (Hlate : cache_get (q, m) (elapse dt w1) = None).
  { rewrite Hw1. by apply cache_get_set_late. }
  exists url. split; [exact Hm|]. split; [exact He|]. split.
  - rewrite search_sent. unfold fetches. by rewrite Hlate, Hm.
  - rewrite (search_miss _ _ _ Hlate).
    destruct (raw q m (elapse dt w1)) as [[v'|e'] w']; reflexivity.
Qed.

(** C4: for every query the payload posted depends on the mode only: for
    web it is the query with focusMode webSearch and optimizationMode
    speed; for images and for videos it is the query with the chatModel
    (provider and model) and an empty chatHistory. *)
Theorem payload_by_mode (q : string) (w : World) :
  sent (raw q "web" w).2 =
    sent w ++ [mkRequest "http://localhost:3000/api/search"
                 (PDict [("query", PStr q);
                         ("focusMode", PStr "webSearch");
                         ("optimizationMode", PStr "speed")]) 60] /\
  sent (raw q "images" w).2 =
    sent w ++ [mkRequest "http://localhost:3000/api/images"
                 (PDict [("query", PStr q);
                         ("chatModel", PDict [("provider", PStr "gemini");
                                              ("model", PStr "gemini-2.5-flash-preview-05-20")]);
                         ("chatHistory", PList [])]) 60] /\
  sent (raw q "videos" w).2 =
    sent w ++ [mkRequest "http://localhost:3000/api/videos"
                 (PDict [("query", PStr q);
                         ("chatModel", PDict [("provider", PStr "gemini");
                                              ("model", PStr "gemini-2.5-flash-preview-05-20")]);
                         ("chatHistory", PList [])]) 60].
Proof.
  repeat split.
  - by rewrite (raw_known_world q "web" _ w eq_refl).
  - by rewrite (raw_known_world q "images" _ w eq_refl).
  - by rewrite (raw_known_world q "videos" _ w eq_refl).
Qed.

(** C5 (amended): for a known mode and nothing live in the memo table,
    when the POST comes back with a 4xx or 5xx status the call raises the
    [HTTPError] carrying that response (the specification's
    RequestFailed); it returns no value and stores nothing. *)
Theorem http_error_status_raises (q m url : string) (w : World) (r : Response) :
  ENDPOINTS !! m = Some url ->
  cache_get (q, m) w = None ->
  outcome (server (now w) (sent w) (mkRequest url (build_payload q m) 60)) = Responded r ->
  400 <= status_code r < 600 ->
  (search q m w).1 = Raise (HTTPError r) /\
  classify (HTTPError r) = RequestFailed /\
  cache (search q m w).2 = cache w.
Proof.
  intros Hm Hc Hr Hs.
  rewrite (search_miss _ _ _ Hc), (raw_known q m url w Hm). simpl. rewrite Hr.
  assert (Hb : (400 <=? status_code r) && (status_code r <? 600) = true).
  { apply andb_true_intro. split; [apply Z.leb_le|apply Z.ltb_lt]; lia. }
  rewrite Hb. simpl. auto.
Qed.

(** A response with any other status is not turned down for its status:
    the call goes on to decode the body. *)
Lemma other_status_decoded (q m url : string) (w : World) (r : Response) :
  ENDPOINTS !! m = Some url ->
  cache_get (q, m) w = None ->
  outcome (server (now w) (sent w) (mkRequest url (build_payload q m) 60)) = Responded r ->
  ~ (400 <= status_code r < 600) ->
  (search q m w).1 =
  match json_body r with
  | Some v => Ok v
  | None => Raise JSONDecodeError
  end.
Proof.
  intros Hm Hc Hr Hs.
  rewrite (search_miss _ _ _ Hc), (raw_known q m url w Hm). simpl. rewrite Hr.
  assert (Hb : (400 <=? status_code r) && (status_code r <? 600) = false).
  { apply andb_false_iff.
    destruct (Z_lt_le_dec (status_code r) 400) as [Hlt|Hge].
    - left. apply Z.leb_gt. exact Hlt.
    - right. apply Z.ltb_ge. lia. }
  rewrite Hb. destruct (json_body r); reflexivity.
Qed.

(** C6: for a known mode and nothing live in the memo table, when the
    POST comes back with a 2xx status and a body that parses to [v], the
    call returns exactly [v], and [v] is what the memo table keeps. *)
Theorem success_returns_body (q m url : string) (w : World) (r : Response) (v : pyval) :
  ENDPOINTS !! m = Some url ->
  cache_get (q, m) w = None ->
  outcome (server (now w) (sent w) (mkRequest url (build_payload q m) 60)) = Responded r ->
  200 <= status_code r < 300 ->
  json_body r = Some v ->
  (search q m w).1 = Ok v /\
  value <$> (cache (search q m w).2 !! (q, m)) = Some v.
Proof.
  intros Hm Hc Hr Hs Hv.
  rewrite (search_miss _ _ _ Hc), (raw_known q m url w Hm). simpl. rewrite Hr.
  assert (Hb : (400 <=? status_code r) && (status_code r <? 600) = false).
  { apply andb_false_intro1. apply Z.leb_gt. lia. }
  rewrite Hb, Hv. simpl. split; [reflexivity|].
  by rewrite lookup_insert_eq.
Qed.

(** ** The claims about the script body *)

Lemma search_cache_other (q m m' : string) (w : World) :
  m ≠ m' -> cache (search q m w).2 !! (q, m') = cache w !! (q, m').
Proof.
  intros Hne. destruct (search_cache q m w) as [->|(url & v & t & _ & ->)]; [done|].
  apply lookup_insert_ne. congruence.
Qed.

(** C8: for every non-empty query and every behaviour of the server, the
    pass returns normally, and each of the three blocks issues its fetch
    in the world the block before it left, whether that block's fetch
    raised or not: a block sends nothing only when the memo table serves
    its call. With no entry for the query in the memo table the pass
    therefore sends exactly the three requests, in the order web, images,
    videos. *)
Theorem search_pass_isolated (q : string) (w : World) :
  str_truthy q = true ->
  let w1 := (web_block server q w).2 in
  let w2 := (images_block server q w1).2 in
  let w3 := (videos_block server q w2).2 in
  (exists res, handler server true q w = (Ok (Some res), w3)) /\
  sent w1 = sent w ++ fetches q "web" w /\
  sent w2 = sent w1 ++ fetches q "images" w1 /\
  sent w3 = sent w2 ++ fetches q "videos" w2 /\
  ((forall m, cache w !! (q, m) = None) ->
   sent w3 = sent w ++
     [mkRequest "http://localhost:3000/api/search" (build_payload q "web") 60;
      mkRequest "http://localhost:3000/api/images" (build_payload q "images") 60;
      mkRequest "http://localhost:3000/api/videos" (build_payload q "videos") 60]).
Proof.
  intros Hq w1 w2 w3.
  assert (H1 : sent w1 = sent w ++ fetches q "web" w).
  { subst w1. destruct (web_block_world q w) as (-> & _ & _). apply search_sent. }
  assert (H2 : sent w2 = sent w1 ++ fetches q "images" w1).
  { subst w2. rewrite images_block_world. apply search_sent. }
  assert (H3 : sent w3 = sent w2 ++ fetches q "videos" w2).
  { subst w3. rewrite videos_block_world. apply search_sent. }
  split; [|split; [exact H1|split; [exact H2|split; [exact H3|]]]].
  - unfold handler. rewrite Hq. simpl. unfold bind.
    destruct (search_pass_eq q w) as (web & imgs & vids & _ & _ & _ & ->).
    by exists (web, imgs, vids).
  - intros Hcold.
    assert (Hc1 : cache w1 !! (q, "images") = None).
    { subst w1. destruct (web_block_world q w) as (_ & -> & _).
      rewrite search_cache_other by discriminate. apply Hcold. }
    assert (Hc1' : cache w1 !! (q, "videos") = None).
    { subst w1. destruct (web_block_world q w) as (_ & -> & _).
      rewrite search_cache_other by discriminate. apply Hcold. }
    assert (Hc2 : cache w2 !! (q, "videos") = None).
    { subst w2. rewrite images_block_world.
      rewrite search_cache_other by discriminate. exact Hc1'. }
    rewrite H3, H2, H1. unfold fetches.
    rewrite (cache_get_absent _ _ (Hcold "web")),
            (cache_get_absent _ _ Hc1), (cache_get_absent _ _ Hc2).
    simpl. by rewrite <- !app_assoc.
Qed.

(** C9: the blocks treat a failed fetch differently, each on its own.
    Whenever the web fetch raises, the web block yields [None] and shows
    the error message built from the exception. Whenever the images fetch
    raises, the images block yields the empty list in the very world the
    fetch left, with nothing added to the messages shown; and likewise for
    the videos block. *)
Theorem fetch_errors_by_mode (q : string) :
  (forall (w w' : World) (e : exn),
     search q "web" w = (Raise e, w') ->
     web_block server q w =
       (Ok PNone, {| now := now w'; sent := sent w'; cache := cache w';
                     shown := shown w ++ [st_error "Web search failed: " e] |})) /\
  (forall (w w' : World) (e : exn),
     search q "images" w = (Raise e, w') ->
     images_block server q w = (Ok (PList []), w') /\ shown w' = shown w) /\
  (forall (w w' : World) (e : exn),
     search q "videos" w = (Raise e, w') ->
     videos_block server q w = (Ok (PList []), w') /\ shown w' = shown w).
Proof.
  split; [|split]; intros w w' e H.
  - pose proof (search_frame q "web" w) as (Hs & _).
    rewrite web_block_eq. rewrite H in *. simpl in *. by rewrite Hs.
  - pose proof (search_frame q "images" w) as (Hs & _).
    rewrite images_block_eq. rewrite H in *. simpl in *. auto.
  - pose proof (search_frame q "videos" w) as (Hs & _).
    rewrite videos_block_eq. rewrite H in *. simpl in *. auto.
Qed.


End ClientFacts.

(** * The claims at concrete inputs *)

Lemma second_call_within_ttl_witness :
  let srv := server_status 200 "OK" (Some (PDict [("message", PStr "hi")])) in
  let w1 := (search_perplexica srv "cats" "web" (init_world 0)).2 in
  (length (sent (search_perplexica srv "cats" "web" (elapse 299 w1)).2) <= 1)%nat /\
  (cache_get ("cats", "web") (init_world 0) = None ->
   search_perplexica srv "cats" "web" (elapse 299 w1) =
     (Ok (PDict [("message", PStr "hi")]), elapse 299 w1) /\
   exists url,
     ENDPOINTS !! "web" = Some url /\
     sent w1 = sent (init_world 0) ++ [mkRequest url (build_payload "cats" "web") 60]).
Proof.
  intros srv w1.
  apply (second_call_within_ttl srv "cats" "web" (init_world 0) w1
           (PDict [("message", PStr "hi")]) 299).
  - vm_compute. reflexivity.
  - vm_compute. reflexivity.
Defined.

Lemma unknown_mode_fails_fast_witness :
  search_perplexica server_down "cats" "news" (init_world 0) =
    (Raise (ValueError "Unknown mode: news"), init_world 0) /\
  search_perplexica_raw server_down "cats" "news" (init_world 0) =
    (Raise (ValueError "Unknown mode: news"), init_world 0) /\
  classify (ValueError "Unknown mode: news") = InvalidMode.
Proof.
  apply (unknown_mode_fails_fast server_down "cats" "news" (init_world 0)).
  - apply reach_init.
  - discriminate.
  - discriminate.
  - discriminate.
Defined.

Lemma refetch_after_ttl_witness :
  let srv := server_status 200 "OK" (Some (PDict [("message", PStr "old")])) in
  let w1 := (search_perplexica srv "cats" "web" (init_world 0)).2 in
  exists url,
    ENDPOINTS !! "web" = Some url /\
    cache w1 !! ("cats", "web") =
      Some (mkEntry (PDict [("message", PStr "old")]) (now w1 + 300)) /\
    sent (search_perplexica srv "cats" "web" (elapse 300 w1)).2 =
      sent w1 ++ [mkRequest url (build_payload "cats" "web") 60] /\
    (search_perplexica srv "cats" "web" (elapse 300 w1)).1 =
      (search_perplexica_raw srv "cats" "web" (elapse 300 w1)).1.
Proof.
  intros srv w1.
  apply (refetch_after_ttl srv "cats" "web" (init_world 0) w1
           (PDict [("message", PStr "old")]) 300).
  - vm_compute. reflexivity.
  - vm_compute. reflexivity.
  - vm_compute. discriminate.
Defined.

Lemma http_error_status_raises_witness :
  let r := mkResponse 503 "Service Unavailable" None in
  let srv := server_status 503 "Service Unavailable" None in
  (search_perplexica srv "cats" "images" (init_world 0)).1 = Raise (HTTPError r) /\
  classify (HTTPError r) = RequestFailed /\
  cache (search_perplexica srv "cats" "images" (init_world 0)).2 = cache (init_world 0).
Proof.
  intros r srv.
  apply (http_error_status_raises srv "cats" "images" "http://localhost:3000/api/images"
           (init_world 0) r).
  - vm_compute. reflexivity.
  - vm_compute. reflexivity.
  - reflexivity.
  - simpl. lia.
Defined.

(** C5 as stated fails: a 300 response is not a 2xx response, yet the
    client hands its (empty) body to the caller as a result. *)
Lemma non_2xx_status_returned :
  let r := mkResponse 300 "Multiple Choices" (Some (PDict [])) in
  let srv := server_status 300 "Multiple Choices" (Some (PDict [])) in
  outcome (srv 0 [] (mkRequest "http://localhost:3000/api/search"
                       (build_payload "cats" "web") 60)) = Responded r /\
  ~ (200 <= status_code r < 300) /\
  (search_perplexica srv "cats" "web" (init_world 0)).1 = Ok (PDict []).
Proof.
  simpl. split; [reflexivity|]. split; [lia|]. vm_compute. reflexivity.
Qed.

Lemma success_returns_body_witness :
  let v := PDict [("images", PList [PDict [("img_src", PStr "a.png")]])] in
  let srv := server_status 200 "OK" (Some v) in
  (search_perplexica srv "cats" "images" (init_world 0)).1 = Ok v /\
  value <$> (cache (search_perplexica srv "cats" "images" (init_world 0)).2
               !! ("cats", "images")) = Some v.
Proof.
  intros v srv.
  apply (success_returns_body srv "cats" "images" "http://localhost:3000/api/images"
           (init_world 0) (mkResponse 200 "OK" (Some v)) v).
  - vm_compute. reflexivity.
  - vm_compute. reflexivity.
  - reflexivity.
  - simpl. lia.
  - reflexivity.
Defined.

Lemma search_pass_isolated_witness :
  let w := init_world 0 in
  let w1 := (web_block server_down "cats" w).2 in
  let w2 := (images_block server_down "cats" w1).2 in
  let w3 := (videos_block server_down "cats" w2).2 in
  (exists res, handler server_down true "cats" w = (Ok (Some res), w3)) /\
  sent w1 = sent w ++ fetches "cats" "web" w /\
  sent w2 = sent w1 ++ fetches "cats" "images" w1 /\
  sent w3 = sent w2 ++ fetches "cats" "videos" w2 /\
  ((forall m, cache w !! ("cats", m) = None) ->
   sent w3 = sent w ++
     [mkRequest "http://localhost:3000/api/search" (build_payload "cats" "web") 60;
      mkRequest "http://localhost:3000/api/images" (build_payload "cats" "images") 60;
      mkRequest "http://localhost:3000/api/videos" (build_payload "cats" "videos") 60]).
Proof.
  apply (search_pass_isolated server_down "cats" (init_world 0)).
  reflexivity.
Defined.

Lemma fetch_errors_by_mode_witness :
  let w := init_world 0 in
  let e := RequestException "Connection refused" in
  let w' := posted (mkRequest "http://localhost:3000/api/search"
                      (build_payload "cats" "web") 60) 0 w in
  let wi' := posted (mkRequest "http://localhost:3000/api/images"
                       (build_payload "cats" "images") 60) 0 w in
  let wv' := posted (mkRequest "http://localhost:3000/api/videos"
                       (build_payload "cats" "videos") 60) 0 w in
  web_block server_web_down "cats" w =
    (Ok PNone, {| now := now w'; sent := sent w'; cache := cache w';
                  shown := shown w ++ [st_error "Web search failed: " e] |}) /\
  (images_block server_down "cats" w = (Ok (PList []), wi') /\ shown wi' = shown w) /\
  (videos_block server_down "cats" w = (Ok (PList []), wv') /\ shown wv' = shown w).
Proof.
  intros w e w' wi' wv'.
  split; [|split].
  - apply (proj1 (fetch_errors_by_mode server_web_down "cats") w w' e).
    vm_compute. reflexivity.
  - apply (proj1 (proj2 (fetch_errors_by_mode server_down "cats")) w wi' e).
    vm_compute. reflexivity.
  - apply (proj2 (proj2 (fetch_errors_by_mode server_down "cats")) w wv' e).
    vm_compute. reflexivity.
Defined.


(** * Further properties of the video-id extractor *)

Lemma strip_prefix_Some (lit s rest : string) :
  strip_prefix lit s = Some rest <-> s = lit +:+ rest.
Proof.
  revert s. induction lit as [|a lit IH]; intros s; simpl.
  - split; [intros [= ->]; reflexivity|intros ->; reflexivity].
  - destruct s as [|b s]; [split; discriminate|].
    destruct (decide (a = b)) as [->|Hne].
    + rewrite bool_decide_eq_true_2 by reflexivity. rewrite IH.
      split; [intros ->; reflexivity|intros [= ->]; reflexivity].
    + rewrite bool_decide_eq_false_2 by exact Hne.
      split; [discriminate|intros [= ? _]; congruence].
Qed.

Lemma take_class_split (s : string) :
  exists post,
    s = take_class s +:+ post /\
    all_in_class (take_class s) = true /\ stops_class post = true.
Proof.
  induction s as [|c s (post & Hs & Hall & Hstop)]; simpl.
  - exists EmptyString. auto.
  - destruct (in_class c) eqn:Hc; simpl.
    + exists post. rewrite Hc, Hall. split; [|auto].
      change (String c s = String c (take_class s +:+ post)). by rewrite <- Hs.
    + exists (String c s). simpl. rewrite Hc. auto.
Qed.

Lemma take_class_app (g post : string) :
  all_in_class g = true -> stops_class post = true -> take_class (g +:+ post) = g.
Proof.
  intros Hg Hpost. induction g as [|c g IH]; simpl in *.
  - destruct post as [|a post]; [reflexivity|]. simpl in *.
    destruct (in_class a); [discriminate|reflexivity].
  - apply andb_true_iff in Hg as [Hc Hg]. rewrite Hc, IH by exact Hg. reflexivity.
Qed.

Lemma match_here_sound (lit s g : string) :
  match_here lit s = Some g ->
  exists post,
    s = lit +:+ g +:+ post /\
    g ≠ "" /\ all_in_class g = true /\ stops_class post = true.
Proof.
  unfold match_here. destruct (strip_prefix lit s) as [rest|] eqn:Hp; [|discriminate].
  apply strip_prefix_Some in Hp. subst s.
  destruct (take_class_split rest) as (post & Hrest & Hall & Hstop).
  destruct (take_class rest) as [|c g'] eqn:Hg; [discriminate|].
  intros [= <-]. exists post. rewrite <- Hrest. auto.
Qed.

Lemma match_here_at (lit g post : string) :
  g ≠ "" -> all_in_class g = true -> stops_class post = true ->
  match_here lit (lit +:+ g +:+ post) = Some g.
Proof.
  intros Hne Hall Hstop. unfold match_here.
  rewrite (proj2 (strip_prefix_Some lit _ (g +:+ post)) eq_refl).
  rewrite take_class_app by assumption.
  destruct g; [contradiction|reflexivity].
Qed.

Lemma re_search_sound (lit s g : string) :
  re_search lit s = Some g ->
  exists pre post,
    s = pre +:+ lit +:+ g +:+ post /\
    g ≠ "" /\ all_in_class g = true /\ stops_class post = true.
Proof.
  induction s as [|c s IH]; simpl.
  - destruct (match_here lit "") eqn:Hm; [|discriminate].
    intros [= <-]. destruct (match_here_sound _ _ _ Hm) as (post & ? & ?).
    by exists EmptyString, post.
  - destruct (match_here lit (String c s)) eqn:Hm.
    + intros [= <-]. destruct (match_here_sound _ _ _ Hm) as (post & ? & ?).
      by exists EmptyString, post.
    + intros H. destruct (IH H) as (pre & post & -> & ?).
      by exists (String c pre), post.
Qed.

Lemma re_search_here (lit s g : string) :
  match_here lit s = Some g -> re_search lit s = Some g.
Proof. intros H. destruct s; simpl; by rewrite H. Qed.

Lemma re_search_found (lit pre rest : string) (c : ascii) :
  in_class c = true -> is_Some (re_search lit (pre +:+ lit +:+ String c rest)).
Proof.
  intros Hc.
  assert (Hhere : is_Some (match_here lit (lit +:+ String c rest))).
  { unfold match_here.
    rewrite (proj2 (strip_prefix_Some lit _ (String c rest)) eq_refl).
    simpl. rewrite Hc. eauto. }
  induction pre as [|a pre IH].
  - destruct Hhere as [g Hg]. exists g.
    change ("" +:+ lit +:+ String c rest) with (lit +:+ String c rest).
    by apply re_search_here.
  - change (String a pre +:+ lit +:+ String c rest)
      with (String a (pre +:+ lit +:+ String c rest)).
    simpl. destruct (match_here lit (String a (pre +:+ lit +:+ String c rest))); eauto.
Qed.

(** A position where the pattern does not match is passed over. *)
Lemma re_search_step (lit s : string) (c : ascii) :
  match_here lit (String c s) = None ->
  re_search lit (String c s) = re_search lit s.
Proof. intros H. simpl. by rewrite H. Qed.

(** A position whose first character is not that of the literal is
    passed over. *)
Lemma re_search_skip (a c : ascii) (lit s : string) :
  a ≠ c -> re_search (String a lit) (String c s) = re_search (String a lit) s.
Proof.
  intros Hne. simpl. unfold match_here at 1. simpl.
  by rewrite bool_decide_eq_false_2.
Qed.

Lemma has_char_app (c : ascii) (s t : string) :
  has_char c (s +:+ t) = has_char c s || has_char c t.
Proof.
  induction s as [|a s IH]; simpl; [reflexivity|].
  rewrite IH. by rewrite orb_assoc.
Qed.

(** A literal holding a character that the text does not hold is found
    nowhere in it. *)
Lemma re_search_no_char (c : ascii) (lit s : string) :
  has_char c lit = true -> has_char c s = false -> re_search lit s = None.
Proof.
  intros Hlit Hs. destruct (re_search lit s) as [g|] eqn:Hr; [|reflexivity].
  destruct (re_search_sound _ _ _ Hr) as (pre & post & -> & _).
  rewrite !has_char_app, Hlit in Hs. simpl in Hs.
  by rewrite orb_true_r in Hs.
Qed.

(** X1: an id the extractor returns stands in the URL right after one of
    the two markers, is not empty, holds no [?] and no [&], and runs up to
    the end of the URL or to the next [?] or [&]. *)
Theorem extract_youtube_id_sound (url g : string) :
  extract_youtube_id url = Some g ->
  exists marker pre post,
    (marker = "youtu.be/" \/ marker = "youtube.com/watch?v=") /\
    url = pre +:+ marker +:+ g +:+ post /\
    g ≠ "" /\ all_in_class g = true /\ stops_class post = true.
Proof.
  unfold extract_youtube_id, youtube_patterns.
  destruct (re_search "youtu.be/" url) as [g1|] eqn:H1.
  { intros [= <-]. destruct (re_search_sound _ _ _ H1) as (pre & post & ?).
    exists "youtu.be/", pre, post. auto. }
  destruct (re_search "youtube.com/watch?v=" url) as [g2|] eqn:H2; [|discriminate].
  intros [= <-]. destruct (re_search_sound _ _ _ H2) as (pre & post & ?).
  exists "youtube.com/watch?v=", pre, post. auto.
Qed.

(** X2: a URL that holds one of the two markers followed by a character
    other than [?] and [&] always yields an id. *)
Theorem extract_youtube_id_complete (marker pre rest : string) (c : ascii) :
  marker = "youtu.be/" \/ marker = "youtube.com/watch?v=" ->
  in_class c = true ->
  is_Some (extract_youtube_id (pre +:+ marker +:+ String c rest)).
Proof.
  intros Hm Hc. unfold extract_youtube_id, youtube_patterns.
  destruct (re_search "youtu.be/" (pre +:+ marker +:+ String c rest)) as [g1|] eqn:H1;
    [eauto|].
  destruct Hm as [-> | ->].
  - destruct (re_search_found "youtu.be/" pre rest c Hc) as [g Hg]. congruence.
  - destruct (re_search_found "youtube.com/watch?v=" pre rest c Hc) as [g Hg].
    rewrite Hg. eauto.
Qed.

(** X3: a short link built from an id gives the id back, whatever query
    string follows it. *)
Theorem extract_short_link (g post : string) :
  g ≠ "" -> all_in_class g = true -> stops_class post = true ->
  extract_youtube_id ("https://youtu.be/" +:+ g +:+ post) = Some g.
Proof.
  intros Hne Hall Hstop. unfold extract_youtube_id, youtube_patterns.
  assert (H : re_search "youtu.be/" ("https://youtu.be/" +:+ g +:+ post) = Some g).
  { change ("https://youtu.be/" +:+ g +:+ post)
      with (String "h" (String "t" (String "t" (String "p" (String "s"
           (String ":" (String "/" (String "/" ("youtu.be/" +:+ g +:+ post))))))))).
    rewrite !re_search_skip by discriminate.
    apply re_search_here. by apply match_here_at. }
  by rewrite H.
Qed.

(** X4: a watch link built from an id gives the id back, when neither the
    id nor what follows it holds a [/] (so that the short-link marker,
    which is tried first, is nowhere in the URL). *)
Theorem extract_watch_link (g post : string) :
  g ≠ "" -> all_in_class g = true -> stops_class post = true ->
  has_char "/" g = false -> has_char "/" post = false ->
  extract_youtube_id ("https://www.youtube.com/watch?v=" +:+ g +:+ post) = Some g.
Proof.
  intros Hne Hall Hstop Hg Hpost. unfold extract_youtube_id, youtube_patterns.
  assert (Htail : re_search "youtu.be/" (g +:+ post) = None).
  { apply (re_search_no_char "/"); [reflexivity|].
    by rewrite has_char_app, Hg, Hpost. }
  assert (H1 : re_search "youtu.be/" ("https://www.youtube.com/watch?v=" +:+ g +:+ post) = None).
  { change ("https://www.youtube.com/watch?v=" +:+ g +:+ post)
      with (String "h" (String "t" (String "t" (String "p" (String "s"
           (String ":" (String "/" (String "/" (String "w" (String "w"
           (String "w" (String "."
           (String "y" (String "o" (String "u" (String "t" (String "u"
           (String "b" (String "e" (String "." (String "c" (String "o"
           (String "m" (String "/" (String "w" (String "a" (String "t"
           (String "c" (String "h" (String "?" (String "v" (String "="
           (g +:+ post))))))))))))))))))))))))))))))))).
    rewrite !re_search_step by reflexivity. exact Htail. }
  assert (H2 : re_search "youtube.com/watch?v="
                 ("https://www.youtube.com/watch?v=" +:+ g +:+ post) = Some g).
  { change ("https://www.youtube.com/watch?v=" +:+ g +:+ post)
      with (String "h" (String "t" (String "t" (String "p" (String "s"
           (String ":" (String "/" (String "/" (String "w" (String "w"
           (String "w" (String "." ("youtube.com/watch?v=" +:+ g +:+ post))))))))))))).
    rewrite !re_search_skip by discriminate.
    apply re_search_here. by apply match_here_at. }
  by rewrite H1, H2.
Qed.

(** * Further properties of the client and of the pass *)

Lemma cache_get_None_later (k : string * string) (w w' : World) :
  cache_get k w = None -> cache w' = cache w -> now w <= now w' ->
  cache_get k w' = None.
Proof.
  unfold cache_get. intros H Hc Hn. rewrite Hc.
  destruct (cache w !! k) as [e|]; [|reflexivity].
  destruct (now w <? expires e) eqn:Hlt; [discriminate|].
  apply Z.ltb_ge in Hlt.
  destruct (now w' <? expires e) eqn:Hlt'; [|reflexivity].
  apply Z.ltb_lt in Hlt'. lia.
Qed.

Section MoreClientFacts.

Variable server : Z -> list Request -> Request -> Reply.

Abbreviation search' := (search_perplexica server).

(** X5: for a known mode with nothing live in the memo table, when the
    POST gets no response the exception of [requests.post] reaches the
    caller as it is; the request counts as sent and nothing is stored. *)
Theorem transport_failure_propagates (q m url msg : string) (w : World) :
  ENDPOINTS !! m = Some url ->
  cache_get (q, m) w = None ->
  outcome (server (now w) (sent w) (mkRequest url (build_payload q m) 60)) = Failed msg ->
  (search' q m w).1 = Raise (RequestException msg) /\
  classify (RequestException msg) = RequestFailed /\
  sent (search' q m w).2 = sent w ++ [mkRequest url (build_payload q m) 60] /\
  cache (search' q m w).2 = cache w.
Proof.
  intros Hm Hc Ho.
  rewrite (search_miss _ _ _ _ Hc), (raw_known server q m url w Hm). simpl.
  rewrite Ho. simpl. auto.
Qed.

(** X6: for a known mode with nothing live in the memo table, when the
    response has a status outside 400..599 and a body that is not JSON,
    the call raises the decode error and stores nothing. *)
Theorem malformed_json_raises (q m url : string) (w : World) (r : Response) :
  ENDPOINTS !! m = Some url ->
  cache_get (q, m) w = None ->
  outcome (server (now w) (sent w) (mkRequest url (build_payload q m) 60)) = Responded r ->
  ~ (400 <= status_code r < 600) ->
  json_body r = None ->
  (search' q m w).1 = Raise JSONDecodeError /\
  classify JSONDecodeError = DecodeError /\
  cache (search' q m w).2 = cache w.
Proof.
  intros Hm Hc Ho Hs Hb.
  pose proof (other_status_decoded server q m url w r Hm Hc Ho Hs) as H1.
  rewrite Hb in H1. split; [exact H1|]. split; [reflexivity|].
  rewrite (search_miss _ _ _ _ Hc), (raw_known server q m url w Hm). simpl.
  rewrite Ho, Hb. destruct (_ && _); reflexivity.
Qed.

(** X7: a call that raises stores nothing, so the next call with the same
    arguments, however soon, sends the request again. *)
Theorem failure_not_cached (q m url : string) (w w1 : World) (e : exn) (dt : N) :
  ENDPOINTS !! m = Some url ->
  cache_get (q, m) w = None ->
  search' q m w = (Raise e, w1) ->
  cache w1 = cache w /\
  sent (search' q m (elapse dt w1)).2 =
    sent w1 ++ [mkRequest url (build_payload q m) 60].
Proof.
  intros Hm Hc H1.
  assert (Hw1 : cache w1 = cache w /\ now w <= now w1).
  { rewrite (search_miss _ _ _ _ Hc), (raw_known server q m url w Hm) in H1.
    simpl in H1. revert H1. reply_cases; intros [= <- <-] || intros [= <-]; simpl; split;
      try reflexivity; lia. }
  destruct Hw1 as [Hcache Hnow]. split; [exact Hcache|].
  rewrite search_sent. unfold fetches.
  rewrite (cache_get_None_later (q, m) w (elapse dt w1) Hc); [by rewrite Hm|exact Hcache|].
  simpl. lia.
Qed.

(** X10: one call sends at most one request, never retries, and the
    request it sends goes to the endpoint of its mode with the payload of
    its arguments and the 60-second timeout; the timer never goes back. *)
Theorem call_sends_at_most_one (q m : string) (w : World) :
  (sent (search' q m w).2 = sent w \/
   exists url, ENDPOINTS !! m = Some url /\
     sent (search' q m w).2 = sent w ++ [mkRequest url (build_payload q m) 60]) /\
  now w <= now (search' q m w).2.
Proof.
  split; [|apply search_frame].
  rewrite search_sent. unfold fetches.
  destruct (cache_get (q, m) w); [left; apply app_nil_r|].
  destruct (ENDPOINTS !! m) as [url|]; [right; by exists url|left; apply app_nil_r].
Qed.

(** *** The pass *)

Lemma images_block_field (q : string) (w : World) :
  images_block server q w =
  match search' q "images" w with
  | (Ok r, w') => (Ok (field_or_empty "images" r), w')
  | (Raise _, w') => (Ok (PList []), w')
  end.
Proof.
  rewrite images_block_eq.
  destruct (search' q "images" w) as [[r|e] w']; [destruct r|]; reflexivity.
Qed.

Lemma videos_block_field (q : string) (w : World) :
  videos_block server q w =
  match search' q "videos" w with
  | (Ok r, w') => (Ok (field_or_empty "videos" r), w')
  | (Raise _, w') => (Ok (PList []), w')
  end.
Proof.
  rewrite videos_block_eq.
  destruct (search' q "videos" w) as [[r|e] w']; [destruct r|]; reflexivity.
Qed.

Lemma handler_all_ok (q : string) (w w1 w2 w3 : World) (v1 v2 v3 : pyval) :
  str_truthy q = true ->
  search' q "web" w = (Ok v1, w1) ->
  search' q "images" w1 = (Ok v2, w2) ->
  search' q "videos" w2 = (Ok v3, w3) ->
  handler server true q w =
    (Ok (Some (v1, field_or_empty "images" v2, field_or_empty "videos" v3)), w3).
Proof.
  intros Hq H1 H2 H3. unfold handler. rewrite Hq. simpl.
  unfold bind, search_pass, bind.
  rewrite web_block_eq, H1, images_block_field, H2, videos_block_field, H3.
  reflexivity.
Qed.

Lemma handler_warm (q : string) (w : World) (v1 v2 v3 : pyval) :
  str_truthy q = true ->
  cache_get (q, "web") w = Some v1 ->
  cache_get (q, "images") w = Some v2 ->
  cache_get (q, "videos") w = Some v3 ->
  handler server true q w =
    (Ok (Some (v1, field_or_empty "images" v2, field_or_empty "videos" v3)), w).
Proof.
  intros Hq H1 H2 H3.
  apply (handler_all_ok q w w w w); [exact Hq| | |]; by apply search_hit.
Qed.

(** X11: when the memo table serves all three modes, the pass returns the
    stored web value and the lists under "images" and "videos" of the
    stored values, and leaves the world exactly as it was: no request, no
    message, no change to the memo table. *)
Theorem warm_pass_read_only (q : string) (w : World) (v1 v2 v3 : pyval) :
  str_truthy q = true ->
  cache_get (q, "web") w = Some v1 ->
  cache_get (q, "images") w = Some v2 ->
  cache_get (q, "videos") w = Some v3 ->
  handler server true q w =
    (Ok (Some (v1, field_or_empty "images" v2, field_or_empty "videos" v3)), w).
Proof.
  intros Hq H1 H2 H3. by apply handler_warm.
Qed.

(** X12: the pass shows a message only for a failed web fetch: what is
    shown grows by that one error when the web fetch raises and by
    nothing otherwise, whatever the images and videos fetches do. *)
Theorem pass_shows_only_web_errors (q : string) (w : World) :
  str_truthy q = true ->
  shown (handler server true q w).2 =
  shown w ++ match (search' q "web" w).1 with
             | Raise e => [st_error "Web search failed: " e]
             | Ok _ => []
             end.
Proof.
  intros Hq. unfold handler. rewrite Hq. simpl. unfold bind.
  destruct (search_pass_eq server q w) as (web & imgs & vids & _ & _ & _ & ->). simpl.
  rewrite videos_block_world.
  destruct (search_frame server q "videos" (images_block server q (web_block server q w).2).2)
    as (-> & _).
  rewrite images_block_world.
  destruct (search_frame server q "images" (web_block server q w).2) as (-> & _).
  rewrite web_block_eq.
  destruct (search_frame server q "web" w) as (Hs & _).
  destruct (search' q "web" w) as [[v|e] w']; simpl in *; rewrite Hs; [by rewrite app_nil_r|done].
Qed.

Lemma fetches_pass_request (q m : string) (w : World) :
  Forall (pass_request q) (fetches q m w) /\ (length (fetches q m w) <= 1)%nat.
Proof.
  unfold fetches. destruct (cache_get (q, m) w); [simpl; split; [constructor|lia]|].
  destruct (ENDPOINTS !! m) as [url|] eqn:Hm; [|simpl; split; [constructor|lia]].
  split; [|simpl; lia]. constructor; [|constructor].
  split; [reflexivity|]. by exists m.
Qed.

(** X13: a pass sends at most three requests, each with the 60-second
    timeout, to an endpoint of the table, with the payload built from the
    query of the pass. *)
Theorem pass_sends_at_most_three (q : string) (w : World) :
  str_truthy q = true ->
  exists reqs,
    sent (handler server true q w).2 = sent w ++ reqs /\
    (length reqs <= 3)%nat /\
    Forall (pass_request q) reqs.
Proof.
  intros Hq.
  set (w1 := (web_block server q w).2).
  set (w2 := (images_block server q w1).2).
  assert (Hw : sent (handler server true q w).2 =
               sent w ++ fetches q "web" w ++ fetches q "images" w1 ++ fetches q "videos" w2).
  { unfold handler. rewrite Hq. simpl. unfold bind.
    destruct (search_pass_eq server q w) as (web & imgs & vids & _ & _ & _ & ->). simpl.
    rewrite videos_block_world, search_sent. fold w1. fold w2.
    unfold w2 at 1. rewrite images_block_world, search_sent.
    unfold w1 at 1. destruct (web_block_world server q w) as (-> & _).
    rewrite search_sent. by rewrite <- !app_assoc. }
  destruct (fetches_pass_request q "web" w) as [F1 L1].
  destruct (fetches_pass_request q "images" w1) as [F2 L2].
  destruct (fetches_pass_request q "videos" w2) as [F3 L3].
  eexists. split; [exact Hw|]. split.
  - rewrite !length_app. lia.
  - apply Forall_app. split; [exact F1|]. apply Forall_app. by split.
Qed.

(** X14: a successful images (or videos) response that is not a JSON
    object, or an object without the "images" (or "videos") key, gives
    the empty list and no exception. *)
Theorem missing_field_gives_empty_list (q : string) (wi wi' wv wv' : World)
        (ri rv : pyval) :
  search' q "images" wi = (Ok ri, wi') ->
  search' q "videos" wv = (Ok rv, wv') ->
  lacks_field "images" ri ->
  lacks_field "videos" rv ->
  images_block server q wi = (Ok (PList []), wi') /\
  videos_block server q wv = (Ok (PList []), wv').
Proof.
  intros Hi Hv Li Lv.
  rewrite images_block_field, videos_block_field, Hi, Hv.
  split.
  - destruct ri; simpl in *; try reflexivity. by rewrite Li.
  - destruct rv; simpl in *; try reflexivity. by rewrite Lv.
Qed.

(** X15: after a pass that started with nothing stored for the query and
    whose three fetches all succeeded, a second pass for the same query
    begun less than 300 seconds after the first one began returns the same
    three values and leaves the world as it is: it sends nothing. *)
Theorem rerun_within_ttl (q : string) (w w1 w2 w3 : World) (v1 v2 v3 : pyval) (dt : N) :
  str_truthy q = true ->
  (forall m, cache w !! (q, m) = None) ->
  search' q "web" w = (Ok v1, w1) ->
  search' q "images" w1 = (Ok v2, w2) ->
  search' q "videos" w2 = (Ok v3, w3) ->
  now w3 + Z.of_N dt < now w + 300 ->
  handler server true q w =
    (Ok (Some (v1, field_or_empty "images" v2, field_or_empty "videos" v3)), w3) /\
  handler server true q (elapse dt w3) =
    (Ok (Some (v1, field_or_empty "images" v2, field_or_empty "videos" v3)), elapse dt w3).
Proof.
  intros Hq Hcold H1 H2 H3 Hdt.
  split; [by eapply handler_all_ok|].
  assert (Hc1 : cache_get (q, "web") w = None) by (apply cache_get_absent, Hcold).
  destruct (search_ok_miss server _ _ _ _ _ Hc1 H1) as (u1 & Hu1 & Hw1).
  assert (Hc2 : cache_get (q, "images") w1 = None).
  { apply cache_get_absent. subst w1. simpl.
    rewrite lookup_insert_ne by congruence. apply Hcold. }
  destruct (search_ok_miss server _ _ _ _ _ Hc2 H2) as (u2 & Hu2 & Hw2).
  assert (Hc3 : cache_get (q, "videos") w2 = None).
  { apply cache_get_absent. subst w2 w1. simpl.
    rewrite !lookup_insert_ne by congruence. apply Hcold. }
  destruct (search_ok_miss server _ _ _ _ _ Hc3 H3) as (u3 & Hu3 & Hw3).
  assert (Hn1 : now w <= now w1) by (subst w1; simpl; lia).
  assert (Hn2 : now w1 <= now w2) by (rewrite Hw2; simpl; lia).
  assert (Hn3 : now w2 <= now w3) by (rewrite Hw3; simpl; lia).
  assert (E1 : cache w3 !! (q, "web") = Some (mkEntry v1 (now w1 + 300))).
  { rewrite Hw3. simpl. rewrite lookup_insert_ne by congruence.
    rewrite Hw2. simpl. rewrite lookup_insert_ne by congruence.
    rewrite Hw1 at 1. simpl. rewrite lookup_insert_eq. by rewrite Hw1. }
  assert (E2 : cache w3 !! (q, "images") = Some (mkEntry v2 (now w2 + 300))).
  { rewrite Hw3. simpl. rewrite lookup_insert_ne by congruence.
    rewrite Hw2 at 1. simpl. rewrite lookup_insert_eq. by rewrite Hw2. }
  assert (E3 : cache w3 !! (q, "videos") = Some (mkEntry v3 (now w3 + 300))).
  { rewrite Hw3 at 1. simpl. rewrite lookup_insert_eq. by rewrite Hw3. }
  apply handler_warm; [exact Hq| | |];
    apply cache_get_Some; eexists; (split; [simpl; eassumption|]); simpl; split; (lia || reflexivity).
Qed.

End MoreClientFacts.

(** X16: whatever the mode, the payload is a dict with distinct keys that
    carries the query as it was given; it has the "focusMode" key exactly
    for the web mode and the "chatModel" key exactly for the others. *)
Theorem payload_well_formed (q m : string) :
  exists d,
    build_payload q m = PDict d /\
    dict_lookup "query" d = Some (PStr q) /\
    NoDup (map fst d) /\
    (is_Some (dict_lookup "focusMode" d) <-> m = "web") /\
    (is_Some (dict_lookup "chatModel" d) <-> m ≠ "web").
Proof.
  destruct (decide (m = "web")) as [->|Hne].
  - eexists. split; [apply build_payload_web|]. split; [reflexivity|].
    split; [|split].
    + compute_done.
    + split; [done|]. intros _. simpl. eauto.
    + split; [|done]. simpl. intros [? [=]].
  - eexists. split; [apply build_payload_other; exact Hne|]. split; [reflexivity|].
    split; [|split].
    + compute_done.
    + split; [|done]. simpl. intros [? [=]].
    + split; [done|]. intros _. simpl. eauto.
Qed.

(** * Properties of the web tab *)

Lemma cons_first_nonempty (c : ascii) (pieces : list string) :
  cons_first c pieces ≠ [].
Proof. destruct pieces; discriminate. Qed.

Lemma split_paragraphs_nonempty (s : string) : split_paragraphs s ≠ [].
Proof.
  destruct s as [|c [|c' rest]]; [discriminate|apply cons_first_nonempty|].
  change (split_paragraphs (String c (String c' rest)))
    with (if bool_decide (c = newline) && bool_decide (c' = newline)
          then EmptyString :: split_paragraphs rest
          else cons_first c (split_paragraphs (String c' rest))).
  destruct (_ && _); [discriminate|apply cons_first_nonempty].
Qed.

Lemma join_cons_first (c : ascii) (pieces : list string) :
  pieces ≠ [] -> join_paragraphs (cons_first c pieces) = String c (join_paragraphs pieces).
Proof.
  destruct pieces as [|p [|p' ps]]; [done| |]; intros _; reflexivity.
Qed.

Lemma join_split_bounded (n : nat) (s : string) :
  (String.length s <= n)%nat -> join_paragraphs (split_paragraphs s) = s.
Proof.
  revert s. induction n as [|n IH]; intros s Hn.
  - destruct s; [reflexivity|simpl in Hn; lia].
  - destruct s as [|c [|c' rest]]; [reflexivity|reflexivity|].
    simpl in Hn.
    change (split_paragraphs (String c (String c' rest)))
      with (if bool_decide (c = newline) && bool_decide (c' = newline)
            then EmptyString :: split_paragraphs rest
            else cons_first c (split_paragraphs (String c' rest))).
    destruct (bool_decide (c = newline) && bool_decide (c' = newline)) eqn:Hb.
    + apply andb_true_iff in Hb as [Hc Hc'].
      apply bool_decide_eq_true_1 in Hc, Hc'. subst c c'.
      pose proof (split_paragraphs_nonempty rest) as Hne.
      destruct (split_paragraphs rest) as [|p ps] eqn:Hs; [done|].
      change (join_paragraphs (EmptyString :: p :: ps))
        with (String newline (String newline (join_paragraphs (p :: ps)))).
      rewrite <- Hs, IH by lia. reflexivity.
    + rewrite join_cons_first by apply split_paragraphs_nonempty.
      rewrite IH by (simpl; lia). reflexivity.
Qed.

Lemma dbind_done {A B} (calls : list st_call) (a : A) (k : A -> D B) :
  dbind (calls, Done a) k = (calls ++ (k a).1, (k a).2).
Proof. unfold dbind. by destruct (k a). Qed.

Lemma dbind_dcall {B} (c : st_call) (k : unit -> D B) :
  dbind (dcall c) k = ([c] ++ (k tt).1, (k tt).2).
Proof. apply dbind_done. Qed.

Lemma dbind_dret {A B} (a : A) (k : A -> D B) : dbind (dret a) k = k a.
Proof. unfold dbind, dret. by destruct (k a). Qed.

Lemma count_expanders_app (c1 c2 : list st_call) :
  count_expanders (c1 ++ c2) = (count_expanders c1 + count_expanders c2)%nat.
Proof. unfold count_expanders. by rewrite List.filter_app, length_app. Qed.

Lemma draw_source_shape (i : Z) (d meta : list (string * pyval)) (url : string) :
  dict_lookup "metadata" d = Some (PDict meta) ->
  dict_lookup "url" meta = Some (PStr url) ->
  draw_source i (PDict d) =
    (source_calls i (default PNone (dict_lookup "title" meta)) url
       (default (PStr "") (dict_lookup "pageContent" d)), Done tt).
Proof.
  intros Hmeta Hurl. unfold draw_source, source_calls. simpl.
  rewrite Hmeta. simpl. rewrite Hurl. simpl.
  destruct (extract_youtube_id url) as [g|] eqn:Hg; [|reflexivity].
  destruct (extract_youtube_id_group _ _ Hg) as [Hne _].
  assert (Ht : str_truthy g = true).
  { unfold str_truthy. by rewrite bool_decide_eq_false_2. }
  rewrite Ht. reflexivity.
Qed.

Lemma source_calls_expanders (i : Z) (title : pyval) (url : string) (snippet : pyval) :
  count_expanders (source_calls i title url snippet) = 1%nat.
Proof.
  unfold source_calls. destruct (extract_youtube_id url); reflexivity.
Qed.

Lemma dfor_cons {A} (x : A) (rest : list A) (body : A -> D unit) :
  dfor (x :: rest) body = dbind (body x) (fun _ => dfor rest body).
Proof. reflexivity. Qed.

Lemma enumerate_from_cons (i : Z) (x : pyval) (rest : list pyval) :
  enumerate_from i (x :: rest) = (i, x) :: enumerate_from (i + 1) rest.
Proof. reflexivity. Qed.

Lemma dfor_sources_ok (srcs : list pyval) (i : Z) :
  Forall source_ok srcs ->
  exists calls,
    dfor (enumerate_from i srcs) (fun '(i, src) => draw_source i src) = (calls, Done tt) /\
    count_expanders calls = length srcs.
Proof.
  intros Hall. revert i. induction Hall as [|src srcs Hsrc _ IH]; intros i.
  - exists []. split; reflexivity.
  - destruct Hsrc as (d & meta & url & -> & Hmeta & Hurl).
    destruct (IH (i + 1)) as (calls & Hcalls & Hcount).
    exists (source_calls i (default PNone (dict_lookup "title" meta)) url
              (default (PStr "") (dict_lookup "pageContent" d)) ++ calls).
    split.
    + rewrite enumerate_from_cons, dfor_cons.
      rewrite (draw_source_shape i d meta url Hmeta Hurl).
      rewrite dbind_done, Hcalls. reflexivity.
    + rewrite count_expanders_app, source_calls_expanders, Hcount. reflexivity.
Qed.

Lemma dfor_markdown_done (ps : list string) :
  exists calls,
    dfor ps (fun p => dcall (st_markdown [lit "> "; val (PStr p)])) = (calls, Done tt) /\
    count_expanders calls = 0%nat /\ length calls = length ps.
Proof.
  induction ps as [|p ps (calls & Hc & Hn & Hl)].
  - exists []. repeat split; reflexivity.
  - exists (st_markdown [lit "> "; val (PStr p)] :: calls). split; [|split].
    + rewrite dfor_cons, Hc. reflexivity.
    + unfold count_expanders in *. simpl. exact Hn.
    + simpl. by rewrite Hl.
Qed.

Lemma dfor_markdown_map (ps : list string) :
  dfor ps (fun p => dcall (st_markdown [lit "> "; val (PStr p)])) =
  (map quote_call ps, Done tt).
Proof.
  induction ps as [|p ps IH]; [reflexivity|].
  rewrite dfor_cons, IH. reflexivity.
Qed.

Lemma draw_source_no_url (i : Z) (src : pyval) :
  source_without_url src ->
  exists title,
    draw_source i src =
    ([st_expander [val (PInt i); lit ". "; val title]; st_columns [1; 4]],
     Abort (WrongType "expected string or bytes-like object")).
Proof.
  intros (d & meta & -> & Hmeta & Hurl).
  exists (default PNone (dict_lookup "title" meta)).
  unfold draw_source. simpl. rewrite Hmeta. simpl.
  destruct (default PNone (dict_lookup "url" meta)) as [| | | |u| |] eqn:Hu;
    try reflexivity.
  exfalso. by apply (Hurl u).
Qed.

Lemma dfor_sources_stop (good rest : list pyval) (bad : pyval) (i : Z) :
  Forall source_ok good ->
  source_without_url bad ->
  exists calls,
    dfor (enumerate_from i (good ++ bad :: rest))
         (fun '(i, src) => draw_source i src) =
      (calls, Abort (WrongType "expected string or bytes-like object")) /\
    count_expanders calls = S (length good).
Proof.
  intros Hgood Hbad. revert i.
  induction Hgood as [|src good Hsrc' _ IH]; intros i.
  - destruct (draw_source_no_url i bad Hbad) as (title & Hdraw).
    exists [st_expander [val (PInt i); lit ". "; val title]; st_columns [1; 4]].
    split; [|reflexivity].
    change (([] ++ bad :: rest)) with (bad :: rest).
    rewrite enumerate_from_cons, dfor_cons, Hdraw. reflexivity.
  - destruct Hsrc' as (sd & meta & url & -> & Hmeta & Hurl).
    destruct (IH (i + 1)) as (calls & Hcalls & Hcount).
    exists (source_calls i (default PNone (dict_lookup "title" meta)) url
              (default (PStr "") (dict_lookup "pageContent" sd)) ++ calls).
    split.
    + change ((PDict sd :: good) ++ bad :: rest)
        with (PDict sd :: (good ++ bad :: rest)).
      rewrite enumerate_from_cons, dfor_cons.
      rewrite (draw_source_shape i sd meta url Hmeta Hurl).
      rewrite dbind_done, Hcalls. reflexivity.
    + rewrite count_expanders_app, source_calls_expanders, Hcount. reflexivity.
Qed.

Section DrawingFacts.

Variable float_truthy : string -> bool.

Abbreviation tab := (web_tab float_truthy).

(** The tab for a non-empty dict with a str message and a list of
    sources: the heading, the paragraphs, the second heading, the loop. *)
Lemma web_tab_dict (d : list (string * pyval)) (msg : string) (srcs : list pyval)
      (c1 c2 : list st_call) (r : drawn unit) :
  d ≠ [] ->
  default (PStr "") (dict_lookup "message" d) = PStr msg ->
  default (PList []) (dict_lookup "sources" d) = PList srcs ->
  dfor (split_paragraphs msg) (fun p => dcall (st_markdown [lit "> "; val (PStr p)]))
    = (c1, Done tt) ->
  dfor (enumerate_from 1 srcs) (fun '(i, src) => draw_source i src) = (c2, r) ->
  tab (PDict d) =
    ([st_markdown [lit "### Web Search Result"]] ++ c1 ++
     [st_markdown [lit "---### Sources"]] ++ c2, r).
Proof.
  intros Hd Hmsg Hsrc Hc1 Hc2. unfold web_tab.
  destruct d as [|kv d']; [done|].
  simpl truthy. cbv iota.
  rewrite dbind_dcall. unfold dget. rewrite Hmsg, dbind_dret.
  unfold dsplit. rewrite dbind_dret, Hc1, dbind_done, dbind_dcall.
  rewrite Hsrc, dbind_dret. unfold diter. rewrite dbind_dret, Hc2.
  reflexivity.
Qed.

(** X17: for a response with a str message and no sources, the tab draws
    the heading, one quote per paragraph of the message in order, and the
    sources heading; the paragraphs lose nothing of the message (joined
    with two newlines they give it back) and there is always at least
    one, so that an empty message is drawn as one empty quote. *)
Theorem web_tab_paragraphs (d : list (string * pyval)) (msg : string) :
  d ≠ [] ->
  default (PStr "") (dict_lookup "message" d) = PStr msg ->
  default (PList []) (dict_lookup "sources" d) = PList [] ->
  tab (PDict d) =
    ([st_markdown [lit "### Web Search Result"]] ++
     map quote_call (split_paragraphs msg) ++
     [st_markdown [lit "---### Sources"]], Done tt) /\
  join_paragraphs (split_paragraphs msg) = msg /\
  split_paragraphs msg ≠ [].
Proof.
  intros Hd Hmsg Hsrc. split; [|split].
  - rewrite (web_tab_dict d msg [] (map quote_call (split_paragraphs msg)) [] (Done tt)
               Hd Hmsg Hsrc (dfor_markdown_map _) eq_refl).
    by rewrite app_nil_r.
  - by apply (join_split_bounded (String.length msg)).
  - apply split_paragraphs_nonempty.
Qed.

(** X18: a source of the documented shape is drawn without an exception
    as an expander, the two columns, the link and the snippet, with the
    thumbnail of the video in between exactly when the extractor finds an
    id in its URL: an id that is found is never dropped by the [if yt]
    test. *)
Theorem draw_source_well_formed (i : Z) (d meta : list (string * pyval)) (url : string) :
  dict_lookup "metadata" d = Some (PDict meta) ->
  dict_lookup "url" meta = Some (PStr url) ->
  draw_source i (PDict d) =
    ([st_expander [val (PInt i); lit ". "; val (default PNone (dict_lookup "title" meta))];
      st_columns [1; 4]] ++
     match extract_youtube_id url with
     | Some g => [st_image [lit "https://img.youtube.com/vi/"; val (PStr g);
                            lit "/hqdefault.jpg"]]
     | None => []
     end ++
     [st_markdown [lit "[🔗 Source]("; val (PStr url); lit ")"];
      st_markdown [lit "> "; val (default (PStr "") (dict_lookup "pageContent" d))]],
     Done tt).
Proof. intros Hmeta Hurl. by rewrite (draw_source_shape i d meta url Hmeta Hurl). Qed.

(** X19: for a response of the documented shape (a non-empty dict whose
    "message", when present, is a str and whose "sources", when present,
    is a list of well-formed sources) the web tab is drawn to the end
    without an exception, with one expander per source. *)
Theorem web_tab_well_formed (d : list (string * pyval)) (msg : string)
        (srcs : list pyval) :
  d ≠ [] ->
  default (PStr "") (dict_lookup "message" d) = PStr msg ->
  default (PList []) (dict_lookup "sources" d) = PList srcs ->
  Forall source_ok srcs ->
  exists calls,
    tab (PDict d) = (calls, Done tt) /\
    count_expanders calls = length srcs.
Proof.
  intros Hd Hmsg Hsrc Hall.
  destruct (dfor_markdown_done (split_paragraphs msg)) as (c1 & Hc1 & Hn1 & _).
  destruct (dfor_sources_ok srcs 1 Hall) as (c2 & Hc2 & Hn2).
  eexists. split; [exact (web_tab_dict d msg srcs c1 c2 _ Hd Hmsg Hsrc Hc1 Hc2)|].
  rewrite !count_expanders_app, Hn1, Hn2. reflexivity.
Qed.

(** X20: when a source has no [str] under "url" (the key is missing, or
    null), drawing stops there with the type error of [re.search]: the
    sources before it are drawn, its own expander is already open, and
    the sources after it are never reached. *)
Theorem web_tab_source_without_url (d : list (string * pyval)) (msg : string)
        (good rest : list pyval) (bad : pyval) :
  d ≠ [] ->
  default (PStr "") (dict_lookup "message" d) = PStr msg ->
  default (PList []) (dict_lookup "sources" d) = PList (good ++ bad :: rest) ->
  Forall source_ok good ->
  source_without_url bad ->
  exists calls,
    tab (PDict d) = (calls, Abort (WrongType "expected string or bytes-like object")) /\
    count_expanders calls = S (length good).
Proof.
  intros Hd Hmsg Hsrc Hgood Hbad.
  destruct (dfor_markdown_done (split_paragraphs msg)) as (c1 & Hc1 & Hn1 & _).
  destruct (dfor_sources_stop good rest bad 1 Hgood Hbad) as (c2 & Hc2 & Hn2).
  eexists. split; [exact (web_tab_dict d msg _ c1 c2 _ Hd Hmsg Hsrc Hc1 Hc2)|].
  rewrite !count_expanders_app, Hn1, Hn2. reflexivity.
Qed.

(** X21: a web result that is not a JSON object is never drawn as a
    result: a falsy one ([None], an empty list or string, zero, false)
    gives the "No web results." box, a truthy one the heading followed by
    the attribute error of [.get]. *)
Theorem web_tab_not_a_dict (v : pyval) :
  (forall d, v ≠ PDict d) ->
  tab v =
  if truthy float_truthy v
  then ([st_markdown [lit "### Web Search Result"]], Abort (NoAttribute "get"))
  else ([st_info_box "No web results."], Done tt).
Proof.
  intros Hv. unfold web_tab.
  destruct (truthy float_truthy v); [|reflexivity].
  destruct v; try reflexivity. exfalso. by eapply Hv.
Qed.

(** X22: a "message" that is present but is not a str (null, say) stops
    the drawing right after the heading, with the attribute error of
    [.split]; the default empty string only stands in for a missing
    key. *)
Theorem web_tab_message_not_str (d : list (string * pyval)) (m : pyval) :
  dict_lookup "message" d = Some m ->
  (forall s, m ≠ PStr s) ->
  tab (PDict d) =
    ([st_markdown [lit "### Web Search Result"]], Abort (NoAttribute "split")).
Proof.
  intros Hm Hs. unfold web_tab.
  destruct d as [|kv d']; [discriminate|].
  simpl truthy. cbv iota.
  rewrite dbind_dcall. unfold dget. rewrite Hm. simpl default.
  rewrite dbind_dret.
  destruct m; try reflexivity. exfalso. by eapply Hs.
Qed.

End DrawingFacts.

Section PassAndDrawing.

Variable server : Z -> list Request -> Request -> Reply.
Variable float_truthy : string -> bool.

(** X23: when the web fetch raises, the web block yields [None] and the
    page shows the error message; the web tab drawn from the value of the
    block then shows the "No web results." box and nothing else, without
    an exception. *)
Theorem failed_web_fetch_draws_info (q : string) (w w1 : World) (e : exn) :
  search_perplexica server q "web" w = (Raise e, w1) ->
  (web_block server q w).1 = Ok PNone /\
  shown (web_block server q w).2 = shown w ++ [st_error "Web search failed: " e] /\
  (forall v, (web_block server q w).1 = Ok v ->
             web_tab float_truthy v = ([st_info_box "No web results."], Done tt)).
Proof.
  intros H.
  pose proof (search_frame server q "web" w) as (Hs & _).
  rewrite web_block_eq, H in *. simpl in *. rewrite Hs.
  split; [reflexivity|]. split; [reflexivity|].
  intros v [= <-]. reflexivity.
Qed.

End PassAndDrawing.

(** * The further properties at concrete inputs *)

Lemma extract_youtube_id_sound_witness :
  exists marker pre post,
    (marker = "youtu.be/" \/ marker = "youtube.com/watch?v=") /\
    "https://youtu.be/XYZ?t=1" = pre +:+ marker +:+ "XYZ" +:+ post /\
    "XYZ" ≠ "" /\ all_in_class "XYZ" = true /\ stops_class post = true.
Proof.
  apply (extract_youtube_id_sound "https://youtu.be/XYZ?t=1" "XYZ").
  vm_compute. reflexivity.
Defined.

Lemma extract_youtube_id_complete_witness :
  is_Some (extract_youtube_id ("see https://" +:+ "youtu.be/" +:+ String "X" "YZ&t=1")).
Proof.
  apply (extract_youtube_id_complete "youtu.be/" "see https://" "YZ&t=1" "X").
  - left. reflexivity.
  - reflexivity.
Defined.

Lemma extract_short_link_witness :
  extract_youtube_id ("https://youtu.be/" +:+ "XYZ" +:+ "?t=1") = Some "XYZ".
Proof.
  apply (extract_short_link "XYZ" "?t=1").
  - discriminate.
  - reflexivity.
  - reflexivity.
Defined.

Lemma extract_watch_link_witness :
  extract_youtube_id ("https://www.youtube.com/watch?v=" +:+ "abc" +:+ "&t=1") = Some "abc".
Proof.
  apply (extract_watch_link "abc" "&t=1").
  - discriminate.
  - reflexivity.
  - reflexivity.
  - reflexivity.
  - reflexivity.
Defined.

Lemma transport_failure_propagates_witness :
  let req := mkRequest "http://localhost:3000/api/search" (build_payload "cats" "web") 60 in
  (search_perplexica server_down "cats" "web" (init_world 0)).1 =
    Raise (RequestException "Connection refused") /\
  classify (RequestException "Connection refused") = RequestFailed /\
  sent (search_perplexica server_down "cats" "web" (init_world 0)).2 =
    sent (init_world 0) ++ [req] /\
  cache (search_perplexica server_down "cats" "web" (init_world 0)).2 = cache (init_world 0).
Proof.
  intros req.
  apply (transport_failure_propagates server_down "cats" "web"
           "http://localhost:3000/api/search" "Connection refused" (init_world 0)).
  - vm_compute. reflexivity.
  - vm_compute. reflexivity.
  - reflexivity.
Defined.

Lemma malformed_json_raises_witness :
  let srv := server_status 200 "OK" None in
  (search_perplexica srv "cats" "web" (init_world 0)).1 = Raise JSONDecodeError /\
  classify JSONDecodeError = DecodeError /\
  cache (search_perplexica srv "cats" "web" (init_world 0)).2 = cache (init_world 0).
Proof.
  intros srv.
  apply (malformed_json_raises srv "cats" "web" "http://localhost:3000/api/search"
           (init_world 0) (mkResponse 200 "OK" None)).
  - vm_compute. reflexivity.
  - vm_compute. reflexivity.
  - reflexivity.
  - simpl. lia.
  - reflexivity.
Defined.

Lemma failure_not_cached_witness :
  let w1 := (search_perplexica server_down "cats" "web" (init_world 0)).2 in
  cache w1 = cache (init_world 0) /\
  sent (search_perplexica server_down "cats" "web" (elapse 5 w1)).2 =
    sent w1 ++ [mkRequest "http://localhost:3000/api/search" (build_payload "cats" "web") 60].
Proof.
  intros w1.
  apply (failure_not_cached server_down "cats" "web" "http://localhost:3000/api/search"
           (init_world 0) w1 (RequestException "Connection refused") 5).
  - vm_compute. reflexivity.
  - vm_compute. reflexivity.
  - vm_compute. reflexivity.
Defined.

Lemma warm_pass_read_only_witness :
  let w := warm_world (PDict [("message", PStr "hi")])
                      (PDict [("images", PList [PStr "a"])]) (PList []) in
  handler server_down true "cats" w =
    (Ok (Some (PDict [("message", PStr "hi")],
               field_or_empty "images" (PDict [("images", PList [PStr "a"])]),
               field_or_empty "videos" (PList []))), w).
Proof.
  intros w.
  apply (warm_pass_read_only server_down "cats" w).
  - reflexivity.
  - vm_compute. reflexivity.
  - vm_compute. reflexivity.
  - vm_compute. reflexivity.
Defined.

Lemma pass_shows_only_web_errors_witness :
  shown (handler server_down true "cats" (init_world 0)).2 =
  shown (init_world 0) ++
  match (search_perplexica server_down "cats" "web" (init_world 0)).1 with
  | Raise e => [st_error "Web search failed: " e]
  | Ok _ => []
  end.
Proof.
  apply (pass_shows_only_web_errors server_down "cats" (init_world 0)).
  reflexivity.
Defined.

Lemma pass_sends_at_most_three_witness :
  exists reqs,
    sent (handler server_down true "cats" (init_world 0)).2 = sent (init_world 0) ++ reqs /\
    (length reqs <= 3)%nat /\
    Forall (pass_request "cats") reqs.
Proof.
  apply (pass_sends_at_most_three server_down "cats" (init_world 0)).
  reflexivity.
Defined.

Lemma missing_field_gives_empty_list_witness :
  let srv := server_status 200 "OK" (Some (PList [PInt 1])) in
  let w := init_world 0 in
  images_block srv "cats" w = (Ok (PList []), (search_perplexica srv "cats" "images" w).2) /\
  videos_block srv "cats" w = (Ok (PList []), (search_perplexica srv "cats" "videos" w).2).
Proof.
  intros srv w.
  apply (missing_field_gives_empty_list srv "cats" w _ w _ (PList [PInt 1]) (PList [PInt 1])).
  - vm_compute. reflexivity.
  - vm_compute. reflexivity.
  - exact I.
  - exact I.
Defined.

Lemma rerun_within_ttl_witness :
  let v := PDict [("images", PList [PStr "a"])] in
  let srv := server_status 200 "OK" (Some v) in
  let w := init_world 0 in
  let w1 := (search_perplexica srv "cats" "web" w).2 in
  let w2 := (search_perplexica srv "cats" "images" w1).2 in
  let w3 := (search_perplexica srv "cats" "videos" w2).2 in
  handler srv true "cats" w =
    (Ok (Some (v, field_or_empty "images" v, field_or_empty "videos" v)), w3) /\
  handler srv true "cats" (elapse 293 w3) =
    (Ok (Some (v, field_or_empty "images" v, field_or_empty "videos" v)), elapse 293 w3).
Proof.
  intros v srv w w1 w2 w3.
  apply (rerun_within_ttl srv "cats" w w1 w2 w3 v v v 293).
  - reflexivity.
  - intros m. apply lookup_empty.
  - vm_compute. reflexivity.
  - vm_compute. reflexivity.
  - vm_compute. reflexivity.
  - vm_compute. reflexivity.
Defined.

Lemma web_tab_paragraphs_witness :
  let msg := "one" +:+ String newline (String newline "two") in
  let d := [("message", PStr msg)] in
  web_tab (fun _ => true) (PDict d) =
    ([st_markdown [lit "### Web Search Result"]] ++
     map quote_call (split_paragraphs msg) ++
     [st_markdown [lit "---### Sources"]], Done tt) /\
  join_paragraphs (split_paragraphs msg) = msg /\
  split_paragraphs msg ≠ [].
Proof.
  intros msg d.
  apply (web_tab_paragraphs (fun _ => true) d msg).
  - discriminate.
  - reflexivity.
  - reflexivity.
Defined.

Lemma draw_source_well_formed_witness :
  let meta := [("title", PStr "A"); ("url", PStr "https://youtu.be/XYZ")] in
  let d := [("metadata", PDict meta); ("pageContent", PStr "hi")] in
  draw_source 1 (PDict d) =
    ([st_expander [val (PInt 1); lit ". "; val (default PNone (dict_lookup "title" meta))];
      st_columns [1; 4]] ++
     match extract_youtube_id "https://youtu.be/XYZ" with
     | Some g => [st_image [lit "https://img.youtube.com/vi/"; val (PStr g);
                            lit "/hqdefault.jpg"]]
     | None => []
     end ++
     [st_markdown [lit "[🔗 Source]("; val (PStr "https://youtu.be/XYZ"); lit ")"];
      st_markdown [lit "> "; val (default (PStr "") (dict_lookup "pageContent" d))]],
     Done tt).
Proof.
  intros meta d.
  apply (draw_source_well_formed 1 d meta "https://youtu.be/XYZ").
  - reflexivity.
  - reflexivity.
Defined.

Lemma web_tab_well_formed_witness :
  let src := PDict [("metadata", PDict [("title", PStr "B"); ("url", PStr "https://example.com")]);
                    ("pageContent", PStr "hi")] in
  let d := [("message", PStr "hello"); ("sources", PList [src; src])] in
  exists calls,
    web_tab (fun _ => true) (PDict d) = (calls, Done tt) /\
    count_expanders calls = length [src; src].
Proof.
  intros src d.
  apply (web_tab_well_formed (fun _ => true) d "hello" [src; src]).
  - discriminate.
  - reflexivity.
  - reflexivity.
  - repeat constructor;
      (eexists _, _, _; split; [reflexivity|split; reflexivity]).
Defined.

Lemma web_tab_source_without_url_witness :
  let good := PDict [("metadata", PDict [("title", PStr "A"); ("url", PStr "https://youtu.be/XYZ")]);
                     ("pageContent", PStr "hi")] in
  let bad := PDict [("metadata", PDict [("title", PStr "B")]); ("pageContent", PStr "hi")] in
  let d := [("message", PStr "hello"); ("sources", PList ([good] ++ bad :: [good]))] in
  exists calls,
    web_tab (fun _ => true) (PDict d) =
      (calls, Abort (WrongType "expected string or bytes-like object")) /\
    count_expanders calls = S (length [good]).
Proof.
  intros good bad d.
  apply (web_tab_source_without_url (fun _ => true) d "hello" [good] [good] bad).
  - discriminate.
  - reflexivity.
  - reflexivity.
  - repeat constructor.
    eexists _, _, _. split; [reflexivity|split; reflexivity].
  - eexists _, _. split; [reflexivity|]. split; [reflexivity|].
    intros u. discriminate.
Defined.

Lemma web_tab_not_a_dict_witness :
  web_tab (fun _ => true) (PList [PInt 1]) =
  if truthy (fun _ => true) (PList [PInt 1])
  then ([st_markdown [lit "### Web Search Result"]], Abort (NoAttribute "get"))
  else ([st_info_box "No web results."], Done tt).
Proof.
  apply (web_tab_not_a_dict (fun _ => true) (PList [PInt 1])).
  intros d. discriminate.
Defined.

Lemma web_tab_message_not_str_witness :
  web_tab (fun _ => true) (PDict [("message", PNone)]) =
    ([st_markdown [lit "### Web Search Result"]], Abort (NoAttribute "split")).
Proof.
  apply (web_tab_message_not_str (fun _ => true) [("message", PNone)] PNone).
  - reflexivity.
  - intros s. discriminate.
Defined.

Lemma failed_web_fetch_draws_info_witness :
  (web_block server_web_down "cats" (init_world 0)).1 = Ok PNone /\
  shown (web_block server_web_down "cats" (init_world 0)).2 =
    shown (init_world 0) ++
    [st_error "Web search failed: " (RequestException "Connection refused")] /\
  (forall v, (web_block server_web_down "cats" (init_world 0)).1 = Ok v ->
             web_tab (fun _ => true) v = ([st_info_box "No web results."], Done tt)).
Proof.
  apply (failed_web_fetch_draws_info server_web_down (fun _ => true) "cats" (init_world 0)
           (search_perplexica server_web_down "cats" "web" (init_world 0)).2
           (RequestException "Connection refused")).
  vm_compute. reflexivity.
Defined.
